(** * frankenstein.py: streak search, time envelope and commit redistribution

    A shallow embedding of [frankenstein.py].  The git logs are a Python
    list of dicts; each dict is read and written through the three keys
    ['author-email'], ['author-date'] and ['committer-date'].  Python
    integers are unbounded, so dates are [Z].  Exceptions are explicit
    results, and the in-place mutation of [logs] is explicit state that
    survives an exception. *)

From Stdlib Require Import ZArith String Lia.
From stdpp Require Import base list strings.

Local Open Scope Z_scope.

(** ** Data model *)

(** One entry of the git logs.  [other_keys] stands for the remaining keys
    of the dict, which this program never reads or writes. *)
Record commit := Commit {
  author_email : string;
  author_date : Z;
  committer_date : Z;
  other_keys : list (string * string)
}.

(** [log['author-date'] = ts; log['committer-date'] = ts] *)
Definition set_dates (c : commit) (ts : Z) : commit :=
  {| author_email := author_email c;
     author_date := ts;
     committer_date := ts;
     other_keys := other_keys c |}.

(** The exceptions the program can raise. *)
Inductive exn :=
| IndexError        (* list index out of range *)
| ValueError        (* random.randint on an empty range, a year out of range *)
| TypeError         (* [raise("...")]: a str is not an exception *)
| OverflowError     (* a timestamp the platform's time functions reject *)
| OSError.          (* [localtime()] or [mktime()] failed *)

Inductive result (A : Type) :=
| Ok (a : A)
| Raise (e : exn).
Arguments Ok {A} a.
Arguments Raise {A} e.

#[global] Instance exn_eq_dec : EqDecision exn := ltac:(solve_decision).
#[global] Instance result_eq_dec {A} `{EqDecision A} : EqDecision (result A) :=
  ltac:(solve_decision).

(** ** find_50commits_month *)

Module Streak.

(** [29 * 24 * 3600] *)
Definition month : Z := 29 * 24 * 3600.

(** [author != None and logs[j]['author-email'] == author] *)
Definition author_matches (author : option string) (c : commit) : bool :=
  match author with
  | None => false
  | Some a => String.eqb (author_email c) a
  end.

(** What one run of the inner loop tells the outer loop. *)
Inductive scan_end :=
| Found        (* [return i] *)
| NotFound.    (* [break], or the range is exhausted *)

(** The inner loop [for j in range(i-1, 0, -1)], entered at index [j] with
    the counter [nb_commits].  The recursion is on [j]: at [S j'] the body
    runs for index [S j'] and the loop goes on with [j'], at [0] the range
    is exhausted.  [author] is tested first, so with [author = None]
    neither [logs[j]] nor [logs[i]] is read. *)
Fixpoint scan (logs : list commit) (author : option string) (i j nb_commits : nat)
  : result scan_end :=
  match j with
  | O => Ok NotFound
  | S j' =>
    match author with
    | None => scan logs author i j' nb_commits
    | Some _ =>
      match logs !! j with
      | None => Raise IndexError
      | Some cj =>
        if author_matches author cj then
          match logs !! i with
          | None => Raise IndexError
          | Some ci =>
            let period := author_date ci - author_date cj in
            if month <? period then Ok NotFound
            else if (50 <=? nb_commits)%nat then Ok Found
            else scan logs author i j' (S nb_commits)
          end
        else scan logs author i j' nb_commits
      end
    end
  end.

(** The outer loop [for i in range(len(logs)-1, 50, -1)], entered at [i]. *)
Fixpoint search (logs : list commit) (author : option string) (i : nat) : result Z :=
  match i with
  | O => Ok (-1)
  | S i' =>
    if (i <=? 50)%nat then Ok (-1)
    else
      match scan logs author i (i - 1) 0 with
      | Raise e => Raise e
      | Ok Found => Ok (Z.of_nat i)
      | Ok NotFound => search logs author i'
      end
  end.

Definition find_50commits_month (logs : list commit) (author : option string)
  : result Z :=
  search logs author (length logs - 1).

(** [find_contributor_50commits_month(repository, logs)], where
    [contributors] is what [git.get_contributors(repository)] returned: the
    loop [for contributor in contributors].  The [None] of the result
    tuple is [None] here. *)
Fixpoint find_contributor_50commits_month (contributors : list string)
    (logs : list commit) : result (option string * Z) :=
  match contributors with
  | [] => Ok (None, -1)
  | contributor :: rest =>
    match find_50commits_month logs (Some contributor) with
    | Raise e => Raise e
    | Ok num_commit =>
      if negb (num_commit =? -1) then Ok (Some contributor, num_commit)
      else find_contributor_50commits_month rest logs
    end
  end.

(** *** The streak the documentation describes

    These follow the docstring and the specification, not the loops: the
    filter accepts every commit when no author is given, and a commit
    qualifies for the streak ending at [ci] when it is accepted and
    authored at most 29 days before [ci]. *)

Definition accepts (author : option string) (c : commit) : bool :=
  match author with
  | None => true
  | Some a => String.eqb (author_email c) a
  end.

Definition qualifies (author : option string) (ci cj : commit) : bool :=
  accepts author cj && (author_date ci - author_date cj <=? month).

(** The number of qualifying commits before index [i]. *)
Definition streak_before (logs : list commit) (author : option string) (i : nat) : nat :=
  match logs !! i with
  | None => 0%nat
  | Some ci => length (filter (fun cj => qualifies author ci cj = true) (take i logs))
  end.

(** The number of qualifying commits the inner loop can meet for [i]: those
    at positions [1 .. i - 1]. *)
Definition streak_scanned (logs : list commit) (author : option string) (i : nat) : nat :=
  match logs !! i with
  | None => 0%nat
  | Some ci =>
    length (filter (fun cj => qualifies author ci cj = true) (drop 1 (take i logs)))
  end.

(** Oldest first: author dates never go down. *)
Fixpoint chronological (logs : list commit) : bool :=
  match logs with
  | c :: ((c' :: _) as rest) => (author_date c <=? author_date c') && chronological rest
  | _ => true
  end.

End Streak.

(** ** Local time

    [datetime.datetime.fromtimestamp] and [time.mktime] follow the rules of
    the time zone of the machine, daylight saving included, and raise on
    what they cannot represent.  A [clock] stands for the two of them.  A
    naive local date and time is counted in seconds from 1970-01-01
    00:00:00 on the local calendar: [local ts] is what
    [fromtimestamp(ts)] returns or raises, and [mktime w] is what
    [time.mktime] returns or raises for the local date and time [w]. *)

Module LocalTime.

Record clock := Clock {
  local : Z -> result Z;
  mktime : Z -> result Z
}.

(** The fields [hour], [minute] and [second] of a local date and time. *)
Definition hour (w : Z) : Z := (w mod 86400) / 3600.
Definition minute (w : Z) : Z := (w mod 3600) / 60.
Definition second (w : Z) : Z := w mod 60.

(** [.date()], as a number of days, and [.timetuple()] of a date, which is
    its midnight. *)
Definition date (w : Z) : Z := w / 86400.
Definition timetuple (d : Z) : Z := d * 86400.

(** [commit_date = datetime.datetime.fromtimestamp(ts)] and
    [commit_date.hour * 3600 + commit_date.minute * 60 + commit_date.second] *)
Definition time_of_day (clk : clock) (ts : Z) : result Z :=
  match local clk ts with
  | Raise e => Raise e
  | Ok commit_date =>
    Ok (hour commit_date * 3600 + minute commit_date * 60 + second commit_date)
  end.

(** [int(time.mktime(datetime.datetime.fromtimestamp(ts).date().timetuple()))]:
    the timestamp of the local midnight that starts the calendar day of
    [ts]. *)
Definition midnight (clk : clock) (ts : Z) : result Z :=
  match local clk ts with
  | Raise e => Raise e
  | Ok w => mktime clk (timetuple (date w))
  end.

(** A zone that is always [tz] seconds ahead of UTC. *)
Definition fixed_offset (tz : Z) : clock :=
  Clock (fun ts => Ok (ts + tz)) (fun w => Ok (w - tz)).

(** A zone that is [tz] seconds ahead of UTC until the instant [change] and
    one hour more from then on. *)
Definition summer_time (tz change : Z) : clock :=
  Clock (fun ts => Ok (if ts <? change then ts + tz else ts + tz + 3600))
        (fun w => Ok (if w - tz <? change then w - tz else w - tz - 3600)).

(** The clock is [tz] seconds ahead of UTC for every instant from [lo] up
    to, but not including, [hi]. *)
Definition steady (clk : clock) (tz lo hi : Z) : Prop :=
  forall ts, lo <= ts < hi ->
    local clk ts = Ok (ts + tz) /\ mktime clk (ts + tz) = Ok ts.

End LocalTime.

(** ** compute_commit_time_period *)

Module Envelope.

(** One turn of [for i in range(0, len(logs))], on [(min_time, max_time)]. *)
Definition step (clk : LocalTime.clock) (acc : Z * Z) (log : commit)
  : result (Z * Z) :=
  let '(min_time, max_time) := acc in
  match LocalTime.time_of_day clk (author_date log) with
  | Raise e => Raise e
  | Ok commit_time =>
    let max_time := if max_time <? commit_time then commit_time else max_time in
    let min_time := if commit_time <? min_time then commit_time else min_time in
    Ok (min_time, max_time)
  end.

(** The loop, over the commits still to visit. *)
Fixpoint loop (clk : LocalTime.clock) (logs : list commit) (acc : Z * Z)
  : result (Z * Z) :=
  match logs with
  | [] => Ok acc
  | log :: rest =>
    match step clk acc log with
    | Raise e => Raise e
    | Ok acc' => loop clk rest acc'
    end
  end.

Definition compute_commit_time_period (clk : LocalTime.clock) (logs : list commit)
  : result (Z * Z) :=
  loop clk logs (3600 * 24, 0).

End Envelope.

(** ** Python lists: indices and slices *)

Module Py.

(** The position [l[k]] denotes: a negative [k] counts from the end. *)
Definition index (len : nat) (k : Z) : option nat :=
  if (0 <=? k) && (k <? Z.of_nat len) then Some (Z.to_nat k)
  else if (k <? 0) && (0 <=? k + Z.of_nat len) then Some (Z.to_nat (k + Z.of_nat len))
  else None.

Definition get {A} (l : list A) (k : Z) : result A :=
  match index (length l) k with
  | None => Raise IndexError
  | Some p =>
    match l !! p with
    | Some x => Ok x
    | None => Raise IndexError
    end
  end.

(** A slice bound: negative bounds count from the end, and both ends are
    clipped to the list. *)
Definition bound (len : nat) (k : Z) : Z :=
  if k <? 0 then Z.max 0 (k + Z.of_nat len) else Z.min k (Z.of_nat len).

(** [l[a:b]] *)
Definition slice {A} (l : list A) (a b : Z) : list A :=
  let a' := bound (length l) a in
  let b' := bound (length l) b in
  take (Z.to_nat (b' - a')) (drop (Z.to_nat a') l).

(** [random.randint(a, b)], where [r] is the raw value the random source
    yields for this call: any integer [N] with [a <= N <= b], and a
    [ValueError] on an empty range. *)
Definition randint (r a b : Z) : result Z :=
  if b <? a then Raise ValueError else Ok (a + r mod (b - a + 1)).

End Py.

(** ** compute_offset *)

Module Offset.

(** [compute_offset(logs, num_commit)], where [now] is what
    [int(time.time())] returned. *)
Definition compute_offset (now : Z) (logs : list commit) (num_commit : Z) : result Z :=
  match Py.get logs num_commit with
  | Raise e => Raise e
  | Ok log => Ok (now - author_date log)
  end.

End Offset.

(** ** redistribute_commits *)

Module Redistribute.

(** The state of the two loops: the logs being mutated, [num_commit], the
    number of draws made from the random source, and the positions
    written so far (most recent last). *)
Record state := State {
  st_logs : list commit;
  st_num_commit : Z;
  st_draws : nat;
  st_written : list nat
}.

Section Loops.
(** The local clock and the random source: [rand k] is the raw value
    behind the [k]-th call of [random.randint]. *)
Variable clk : LocalTime.clock.
Variable rand : nat -> Z.

(** The inner loop [for i in range(0, numbers_of_commits[num_day])], with
    [n] turns left. *)
Fixpoint day_loop (min_time max_time day : Z) (n : nat) (s : state)
  : state * result unit :=
  match n with
  | O => (s, Ok tt)
  | S n' =>
    match Py.randint (rand (st_draws s)) min_time max_time with
    | Raise e => (s, Raise e)
    | Ok commit_time =>
      let timestamp := day + commit_time in
      match Py.index (length (st_logs s)) (st_num_commit s) with
      | None => (s, Raise IndexError)
      | Some p =>
        day_loop min_time max_time day n'
          {| st_logs := alter (fun c => set_dates c timestamp) p (st_logs s);
             st_num_commit := st_num_commit s + 1;
             st_draws := S (st_draws s);
             st_written := st_written s ++ [p] |}
      end
    end
  end.

(** The outer loop [for num_day in range(0, 29)], over the days left. *)
Fixpoint days_loop (numbers_of_commits : list nat) (min_time max_time start_date : Z)
    (days : list nat) (s : state) : state * result unit :=
  match days with
  | [] => (s, Ok tt)
  | num_day :: days' =>
    let day := start_date + Z.of_nat num_day * 24 * 3600 in
    match numbers_of_commits !! num_day with
    | None => (s, Raise IndexError)
    | Some n =>
      match day_loop min_time max_time day n s with
      | (s', Ok _) =>
        days_loop numbers_of_commits min_time max_time start_date days' s'
      | (s', Raise e) => (s', Raise e)
      end
    end
  end.

(** [total_commits = sum(numbers_of_commits)] *)
Definition total_commits (numbers_of_commits : list nat) : Z :=
  Z.of_nat (sum_list numbers_of_commits).

(** [start_commit = num_commit - total_commits + 1] *)
Definition start_commit (num_commit : Z) (numbers_of_commits : list nat) : Z :=
  num_commit - total_commits numbers_of_commits + 1.

(** [compute_commit_time_period(logs[start_commit: end_commit])] *)
Definition envelope (logs : list commit) (num_commit : Z)
    (numbers_of_commits : list nat) : result (Z * Z) :=
  let end_commit := num_commit in
  Envelope.compute_commit_time_period clk
    (Py.slice logs (start_commit num_commit numbers_of_commits) end_commit).

(** The body of [redistribute_commits], where [numbers_of_commits] is what
    [gauss.generate_in_range(5.0/3, 29, 50, 60)] returned.  The result is
    the final state together with the way the call ended. *)
Definition run (logs : list commit) (num_commit : Z) (numbers_of_commits : list nat)
  : state * result unit :=
  let s0 := State logs num_commit 0 [] in
  if negb (length numbers_of_commits =? 29)%nat then (s0, Raise TypeError)
  else
    let start := start_commit num_commit numbers_of_commits in
    match envelope logs num_commit numbers_of_commits with
    | Raise e => (s0, Raise e)
    | Ok (min_time, max_time) =>
      match Py.get logs start with
      | Raise e => (s0, Raise e)
      | Ok first =>
        match LocalTime.midnight clk (author_date first) with
        | Raise e => (s0, Raise e)
        | Ok start_date =>
          days_loop numbers_of_commits min_time max_time start_date (seq 0 29)
            (State logs start 0 [])
        end
      end
    end.

(** [redistribute_commits(logs, num_commit)]: the logs as the call leaves
    them, and how it ended. *)
Definition redistribute_commits (logs : list commit) (num_commit : Z)
    (numbers_of_commits : list nat) : list commit * result unit :=
  let '(s, r) := run logs num_commit numbers_of_commits in (st_logs s, r).

End Loops.

(** *** What the loops compute, position by position

    The [k]-th commit written (counting from 0) lands on day
    [day_of plan k] of the plan, at the time of day the [k]-th draw gives. *)

Fixpoint day_of (numbers_of_commits : list nat) (k : nat) : nat :=
  match numbers_of_commits with
  | [] => O
  | n :: rest => if (k <? n)%nat then O else S (day_of rest (k - n))
  end.

Definition draw (rand : nat -> Z) (min_time max_time : Z) (k : nat) : Z :=
  min_time + rand k mod (max_time - min_time + 1).

Definition stamp (rand : nat -> Z) (numbers_of_commits : list nat)
    (min_time max_time start_date : Z) (k : nat) : Z :=
  start_date + Z.of_nat (day_of numbers_of_commits k) * 24 * 3600
  + draw rand min_time max_time k.

(** The loop invariant after [p] writes, for the window that starts at
    position [a] of the logs [logs0] the call received: the next position
    is [a + p], [p] draws were made, positions [a .. a + p - 1] were each
    written once and hold their stamps, and everything else is as it was. *)
Record written_upto (rand : nat -> Z) (numbers_of_commits : list nat)
    (min_time max_time start_date : Z) (logs0 : list commit) (a p : nat)
    (s : state) : Prop := WrittenUpto {
  wu_num_commit : st_num_commit s = Z.of_nat (a + p);
  wu_draws : st_draws s = p;
  wu_written : st_written s = seq a p;
  wu_inside : (a + p <= length logs0)%nat;
  wu_length : length (st_logs s) = length logs0;
  wu_logs : forall k,
    st_logs s !! k =
      if decide (a <= k < a + p)%nat
      then (fun c => set_dates c
              (stamp rand numbers_of_commits min_time max_time start_date (k - a)))
           <$> logs0 !! k
      else logs0 !! k
}.

(** The window as the specification words it: the records at positions
    [start .. start + total - 1]. *)
Definition window (logs : list commit) (start total : Z) : list commit :=
  take (Z.to_nat total) (drop (Z.to_nat start) logs).

(** The window is in non-decreasing order of author date. *)
Definition non_decreasing (w : list commit) : Prop :=
  forall j k cj ck, (j <= k)%nat -> w !! j = Some cj -> w !! k = Some ck ->
    author_date cj <= author_date ck.

End Redistribute.

(** ** The script

    The body under [if __name__ == "__main__"].  What the collaborators
    return is given: [logs] is the list [git.dump_logs] returned,
    [contributors] the one [git.get_contributors] returned,
    [numbers_of_commits] the plan of [gauss.generate_in_range], [now] the
    clock of [compute_offset].  Cloning, [git.dump_commits], which is taken
    to leave [logs] as they are, and printing are left out.  The script
    ends with [sys.exit], after at most one call of
    [git.rebuild_repository], or with an exception nobody catches. *)

Module Script.

(** The sixth argument of [git.rebuild_repository]: [[]], [[contributor]]
    or ['all']. *)
Inductive replaced :=
| Nobody
| Only (contributor : string)
| Everybody.

(** The arguments of [git.rebuild_repository], but for the repository. *)
Record rebuild := Rebuild {
  rb_logs : list commit;
  rb_new_repository : string;
  rb_your_name : string;
  rb_your_email : string;
  rb_replaced : replaced;
  rb_offset : Z
}.

Inductive outcome :=
| Exit (status : Z) (call : option rebuild)
| Uncaught (e : exn).

(** [offset = compute_offset(logs, num_commit)], the call of
    [git.rebuild_repository] and [sys.exit(0)]. *)
Definition shift_and_rebuild (now : Z) (logs : list commit) (num_commit : Z)
    (new_repository your_name your_email : string) (who : replaced) : outcome :=
  match Offset.compute_offset now logs num_commit with
  | Raise e => Uncaught e
  | Ok offset =>
    Exit 0 (Some (Rebuild logs new_repository your_name your_email who offset))
  end.

Definition main (clk : LocalTime.clock) (rand : nat -> Z) (now : Z)
    (argv : list string)
    (logs : list commit) (contributors : list string)
    (numbers_of_commits : list nat) : outcome :=
  if (length argv <? 5)%nat then Exit 2 None
  else
    let new_repository := nth 2 argv ""%string in
    let your_email := nth 3 argv ""%string in
    let your_name := nth 4 argv ""%string in
    if (length logs <? 50)%nat then Exit 1 None
    else
      match Streak.find_50commits_month logs (Some your_email) with
      | Raise e => Uncaught e
      | Ok num_commit =>
        if negb (num_commit =? -1) then
          shift_and_rebuild now logs num_commit new_repository your_name your_email
            Nobody
        else
          match Streak.find_contributor_50commits_month contributors logs with
          | Raise e => Uncaught e
          | Ok (Some contributor, num_commit) =>
            shift_and_rebuild now logs num_commit new_repository your_name
              your_email (Only contributor)
          | Ok (None, _) =>
            match Streak.find_50commits_month logs None with
            | Raise e => Uncaught e
            | Ok num_commit =>
              if negb (num_commit =? -1) then
                shift_and_rebuild now logs num_commit new_repository your_name
                  your_email Everybody
              else
                let last_commit := Z.of_nat (length logs) - 1 in
                match Redistribute.redistribute_commits clk rand logs last_commit
                        numbers_of_commits with
                | (_, Raise e) => Uncaught e
                | (logs', Ok _) =>
                  shift_and_rebuild now logs' last_commit new_repository your_name
                    your_email Everybody
                end
            end
          end
      end.

(** The commits the rebuilt repository shows under the user's name, as the
    comments of the script have it ([the contributor will be replaced with
    the user of the script], [all contributors to the project will be
    replaced]): the user's own, those of the contributor replaced, or all
    of them. *)
Definition shown_as_user (call : rebuild) (c : commit) : bool :=
  match rb_replaced call with
  | Nobody => String.eqb (author_email c) (rb_your_email call)
  | Only contributor =>
    String.eqb (author_email c) contributor
    || String.eqb (author_email c) (rb_your_email call)
  | Everybody => true
  end.

End Script.

(** ** Concrete histories *)

Module Samples.

(** A commit by [email] dated [ts]. *)
Definition at_time (email : string) (ts : Z) : commit := Commit email ts ts [].

(** Sixty commits by one developer, one second apart. *)
Definition sixty_in_a_minute : list commit :=
  map (fun k => at_time "dev@example.org" (Z.of_nat k)) (seq 0 60).

(** Fifty-three commits one second apart: the two oldest by somebody else,
    the other fifty-one by the developer. *)
Definition fifty_after_two : list commit :=
  map (fun k => at_time "other@example.org" (Z.of_nat k)) (seq 0 2)
  ++ map (fun k => at_time "dev@example.org" (Z.of_nat k)) (seq 2 51).

(** [n] commits, one per day from day 100 of the epoch on, each at
    9:00:00 UTC plus [k * 600] seconds for the [k]-th commit. *)
Definition daily (n : nat) : list commit :=
  map (fun k => at_time "dev@example.org"
                  ((100 + Z.of_nat k) * 86400 + 32400 + Z.of_nat k * 600))
      (seq 0 n).

(** Sixty commits at 9:00:00 UTC on consecutive days, but for the last, made
    at 23:00:00 UTC. *)
Definition late_anchor : list commit :=
  map (fun k => at_time "dev@example.org" ((100 + Z.of_nat k) * 86400 + 32400))
      (seq 0 59)
  ++ [at_time "dev@example.org" (159 * 86400 + 82800)].

(** A plan of 29 days and 50 commits. *)
Definition plan50 : list nat :=
  (replicate 5 2 ++ replicate 8 1 ++ replicate 16 2)%nat.

(** A plan of 29 days and 60 commits. *)
Definition plan60 : list nat := (replicate 2 3 ++ replicate 27 2)%nat.

(** A plan of 28 days. *)
Definition plan28days : list nat := replicate 28 2%nat.

(** A random source whose raw values go down. *)
Definition falling (k : nat) : Z := 1000 - Z.of_nat k.

(** A random source whose raw values jump around. *)
Definition jumping (k : nat) : Z := Z.of_nat k * 7919.

(** Sixty commits made one second apart from 23:30:00 on, on day 100 of the
    local calendar of a zone one hour ahead of UTC. *)
Definition late_evening : list commit :=
  map (fun k => at_time "dev@example.org" (100 * 86400 + 81000 + Z.of_nat k))
      (seq 0 60).

(** A zone one hour ahead of UTC that moves its clocks forward by an hour
    at 02:00 on day 110 of its calendar. *)
Definition spring_forward : LocalTime.clock :=
  LocalTime.summer_time 3600 (110 * 86400 + 3600).

(** A command line: the script, the repository, the name of the copy, the
    email and the name of the user. *)
Definition argv : list string :=
  ["frankenstein.py"; "repo"; "copy"; "me@example.org"; "Me"]%string.

End Samples.

(** * Facts about find_50commits_month *)

Section StreakFacts.
Import Streak.

(** Without an author the body of the inner loop never runs. *)
Lemma scan_no_author logs i j nb : scan logs None i j nb = Ok NotFound.
Proof. induction j as [|j IH]; simpl; auto. Qed.

Lemma search_no_author logs i : search logs None i = Ok (-1).
Proof.
  induction i as [|i IH]; [reflexivity|].
  cbn [search]. destruct (S i <=? 50)%nat; [reflexivity|].
  now rewrite scan_no_author.
Qed.

Lemma find_50commits_month_no_author logs :
  find_50commits_month logs None = Ok (-1).
Proof. apply search_no_author. Qed.

(** The inner loop reads positions [j, j-1, .., 1] and [i] only, so it
    cannot fall off the list when [j <= i < len(logs)]. *)
Lemma scan_no_raise logs author i j nb :
  (i < length logs)%nat -> (j <= i)%nat ->
  exists e, scan logs author i j nb = Ok e.
Proof.
  intros Hi. revert nb.
  induction j as [|j IH]; intros nb Hj; [now exists NotFound|].
  cbn [scan]. destruct author as [a|]; [|apply IH; lia].
  destruct (lookup_lt_is_Some_2 logs (S j)) as [cj ->]; [lia|].
  destruct (lookup_lt_is_Some_2 logs i) as [ci ->]; [lia|].
  destruct (author_matches (Some a) cj); [|apply IH; lia].
  destruct (month <? _); [now exists NotFound|].
  destruct (50 <=? nb)%nat; [now exists Found|apply IH; lia].
Qed.

Lemma search_range logs author i :
  (i < length logs \/ i = 0)%nat ->
  exists r, search logs author i = Ok r /\ (r = -1 \/ 51 <= r <= Z.of_nat i).
Proof.
  induction i as [|i IH]; intros Hi; [exists (-1); auto|].
  cbn [search]. destruct (S i <=? 50)%nat eqn:E; [exists (-1); auto|].
  apply Nat.leb_gt in E.
  destruct (scan_no_raise logs author (S i) (S i - 1) 0) as [e ->]; [lia..|].
  destruct e.
  - exists (Z.of_nat (S i)). split; [reflexivity|right; lia].
  - destruct IH as (r & -> & Hr); [lia|]. exists r. split; [reflexivity|lia].
Qed.

(** The commit at index 0 is not read: replacing it changes nothing. *)
Lemma scan_skips_first c c' rest author i j nb :
  scan (c :: rest) author (S i) j nb = scan (c' :: rest) author (S i) j nb.
Proof.
  revert nb. induction j as [|j IH]; intros nb; [reflexivity|].
  cbn [scan]. destruct author as [a|]; [|apply IH].
  change ((c :: rest) !! S j) with (rest !! j).
  change ((c' :: rest) !! S j) with (rest !! j).
  change ((c :: rest) !! S i) with (rest !! i).
  change ((c' :: rest) !! S i) with (rest !! i).
  destruct (rest !! j) as [cj|]; [|reflexivity].
  destruct (author_matches (Some a) cj); [|apply IH].
  destruct (rest !! i) as [ci|]; [|reflexivity].
  destruct (month <? _); [reflexivity|].
  destruct (50 <=? nb)%nat; [reflexivity|apply IH].
Qed.

Lemma search_skips_first c c' rest author i :
  search (c :: rest) author i = search (c' :: rest) author i.
Proof.
  induction i as [|i IH]; [reflexivity|].
  cbn [search]. destruct (S i <=? 50)%nat; [reflexivity|].
  rewrite (scan_skips_first c c'), IH. reflexivity.
Qed.

(** When the inner loop returns, commit [i] exists, and the counter and the
    qualifying commits still to its left add up to 51 or more. *)
Lemma scan_found logs a i j nb :
  scan logs (Some a) i j nb = Ok Found ->
  exists ci, logs !! i = Some ci /\
    (51 <= nb + length (filter (fun cj => qualifies (Some a) ci cj = true)
                          (take (S j) logs)))%nat.
Proof.
  revert nb. induction j as [|j IH]; intros nb; [discriminate|].
  cbn [scan].
  destruct (logs !! S j) as [cj|] eqn:Hj; [|discriminate].
  unfold author_matches.
  destruct (String.eqb (author_email cj) a) eqn:Ha.
  - destruct (logs !! i) as [ci|] eqn:Hi; [|discriminate].
    destruct (month <? author_date ci - author_date cj) eqn:Hm; [discriminate|].
    apply Z.ltb_ge in Hm.
    assert (Hq : qualifies (Some a) ci cj = true).
    { unfold qualifies, accepts. rewrite Ha. now apply Z.leb_le. }
    destruct (50 <=? nb)%nat eqn:Hn.
    + intros _. exists ci. split; [reflexivity|].
      apply Nat.leb_le in Hn.
      rewrite (take_S_r _ _ _ Hj), filter_app, length_app.
      rewrite filter_cons_True, filter_nil by exact Hq.
      change (length [cj]) with 1%nat. lia.
    + intros H. apply IH in H as (ci' & Hi' & H).
      injection Hi' as <-.
      exists ci. split; [reflexivity|].
      rewrite (take_S_r _ _ _ Hj), filter_app, length_app.
      rewrite filter_cons_True, filter_nil by exact Hq.
      change (length [cj]) with 1%nat. lia.
  - intros H. apply IH in H as (ci & Hi & H).
    exists ci. split; [assumption|].
    rewrite (take_S_r _ _ _ Hj), filter_app, length_app. lia.
Qed.

(** Soundness for a given author: an index that is returned ends a streak
    of at least 51 qualifying commits. *)
Lemma search_found logs a i r :
  search logs (Some a) i = Ok r -> r <> -1 ->
  exists k, r = Z.of_nat k /\ (51 <= k <= i)%nat /\
    (51 <= streak_before logs (Some a) k)%nat.
Proof.
  induction i as [|i IH]; [intros [= <-]; congruence|].
  cbn [search]. destruct (S i <=? 50)%nat eqn:Hle; [intros [= <-]; congruence|].
  apply Nat.leb_gt in Hle.
  destruct (scan logs (Some a) (S i) (S i - 1) 0) as [[]|] eqn:E;
    [| |discriminate].
  - intros [= <-] _. exists (S i). split; [reflexivity|]. split; [lia|].
    apply scan_found in E as (ci & Hi & E).
    unfold streak_before. rewrite Hi.
    replace (S (S i - 1)) with (S i) in E by lia. exact E.
  - intros H1 H2. destruct (IH H1 H2) as (k & -> & Hk & Hs).
    exists k. split; [reflexivity|]. split; [lia|exact Hs].
Qed.

Lemma find_50commits_month_sound logs a r :
  find_50commits_month logs (Some a) = Ok r -> r <> -1 ->
  exists k, r = Z.of_nat k /\ (51 <= k < length logs)%nat /\
    (51 <= streak_before logs (Some a) k)%nat.
Proof.
  intros H1 H2. destruct (search_found _ _ _ _ H1 H2) as (k & -> & Hk & Hs).
  exists k. split; [reflexivity|]. split; [lia|exact Hs].
Qed.

(** C1, at a history the claim covers: sixty commits in chronological
    order, all within one minute, so that the newest one has 59 commits
    in the 29 days before it.  Called without an author,
    [find_50commits_month] answers -1 where the claim promises an index,
    as it does on every history. *)
Theorem no_author_misses_streak :
  chronological Samples.sixty_in_a_minute = true /\
  streak_before Samples.sixty_in_a_minute None 59 = 59%nat /\
  find_50commits_month Samples.sixty_in_a_minute None = Ok (-1) /\
  forall logs, find_50commits_month logs None = Ok (-1).
Proof.
  split; [reflexivity|]. split; [vm_compute; reflexivity|].
  split; apply find_50commits_month_no_author.
Qed.

(** C2, at a history where the newest commit has exactly 50 qualifying
    commits before it: the backward scan from index 51 counts all fifty
    and runs out of commits without returning, and the search answers -1
    where the claim has it return 52 once the count reaches 50. *)
Theorem fifty_qualifying_not_returned :
  streak_before Samples.fifty_after_two (Some "dev@example.org"%string) 52 = 50%nat /\
  scan Samples.fifty_after_two (Some "dev@example.org"%string) 52 51 0 = Ok NotFound /\
  find_50commits_month Samples.fifty_after_two (Some "dev@example.org"%string)
    = Ok (-1).
Proof. repeat split; vm_compute; reflexivity. Qed.

(** C10: [find_50commits_month] always returns, and what it returns is -1
    or an index in [51, len(logs) - 1]; on at most 51 commits it returns
    -1; and the commit at index 0 is never read, so that replacing it
    changes nothing. *)
Theorem find_50commits_month_range logs author :
  (exists r, find_50commits_month logs author = Ok r /\
     (r = -1 \/ 51 <= r <= Z.of_nat (length logs) - 1)) /\
  ((length logs <= 51)%nat -> find_50commits_month logs author = Ok (-1)) /\
  (forall c c' rest, logs = c :: rest ->
     find_50commits_month (c' :: rest) author = find_50commits_month logs author).
Proof.
  split; [|split].
  - unfold find_50commits_month.
    destruct (search_range logs author (length logs - 1)) as (r & Hr & Hb); [lia|].
    exists r. split; [exact Hr|lia].
  - intros Hlen. unfold find_50commits_month.
    destruct (length logs - 1)%nat as [|i] eqn:E; [reflexivity|].
    cbn [search]. destruct (S i <=? 50)%nat eqn:E'; [reflexivity|].
    apply Nat.leb_gt in E'. lia.
  - intros c c' rest ->. unfold find_50commits_month.
    cbn [length]. apply search_skips_first.
Qed.

Lemma find_50commits_month_range_witness :
  let logs := take 51 Samples.sixty_in_a_minute in
  let first := Samples.at_time "dev@example.org" 0 in
  let rest := drop 1 logs in
  (length logs <= 51)%nat /\
  logs = first :: rest /\
  find_50commits_month logs (Some "dev@example.org"%string) = Ok (-1) /\
  find_50commits_month (Samples.at_time "other@example.org" 7 :: rest)
    (Some "dev@example.org"%string)
  = find_50commits_month logs (Some "dev@example.org"%string).
Proof.
  intros logs first rest.
  assert (H1 : (length logs <= 51)%nat) by (vm_compute; lia).
  assert (H2 : logs = first :: rest) by reflexivity.
  split; [exact H1|]. split; [exact H2|].
  destruct (find_50commits_month_range logs (Some "dev@example.org"%string))
    as (_ & Hshort & Hfirst).
  split; [exact (Hshort H1)|].
  exact (Hfirst first (Samples.at_time "other@example.org" 7) rest H2).
Defined.

End StreakFacts.

(** * Facts about local time and compute_commit_time_period *)

Section EnvelopeFacts.
Import LocalTime Envelope.

(** The clock fields add up to the seconds since local midnight. *)
Lemma seconds_since_midnight w :
  hour w * 3600 + minute w * 60 + second w = w mod 86400.
Proof.
  unfold hour, minute, second.
  set (r := w mod 86400).
  assert (Hx : w = r + (w / 86400 * 24) * 3600)
    by (pose proof (Z.div_mod w 86400 ltac:(lia)); lia).
  assert (H3600 : w mod 3600 = r mod 3600)
    by (rewrite Hx at 1; apply Z.mod_add; lia).
  assert (Hx' : w = r + (w / 86400 * 1440) * 60)
    by (pose proof (Z.div_mod w 86400 ltac:(lia)); lia).
  assert (H60 : w mod 60 = r mod 60)
    by (rewrite Hx' at 1; apply Z.mod_add; lia).
  rewrite H3600, H60.
  set (m := r mod 3600).
  assert (Hr : r = m + (r / 3600 * 60) * 60)
    by (pose proof (Z.div_mod r 3600 ltac:(lia)); lia).
  assert (Hm : r mod 60 = m mod 60)
    by (rewrite Hr at 1; apply Z.mod_add; lia).
  rewrite Hm.
  pose proof (Z.div_mod r 3600 ltac:(lia)).
  pose proof (Z.div_mod m 60 ltac:(lia)).
  lia.
Qed.

Lemma time_of_day_local clk ts t :
  time_of_day clk ts = Ok t <-> exists w, local clk ts = Ok w /\ t = w mod 86400.
Proof.
  unfold time_of_day. destruct (local clk ts) as [w|e].
  - rewrite seconds_since_midnight. split.
    + intros [= <-]. eauto.
    + intros (w' & [= <-] & ->). reflexivity.
  - split; [discriminate|]. intros (w & [=] & _).
Qed.

Lemma time_of_day_range clk ts t : time_of_day clk ts = Ok t -> 0 <= t < 86400.
Proof.
  intros (w & _ & ->)%time_of_day_local. apply Z.mod_pos_bound. lia.
Qed.

(** While the clock is steady, times of day and midnights are those of a
    fixed offset. *)
Lemma steady_time_of_day clk tz lo hi ts :
  steady clk tz lo hi -> lo <= ts < hi ->
  time_of_day clk ts = Ok ((ts + tz) mod 86400).
Proof.
  intros Hsteady Hts. apply time_of_day_local.
  exists (ts + tz). split; [apply (Hsteady ts Hts)|reflexivity].
Qed.

Lemma steady_midnight clk tz lo hi ts :
  steady clk tz lo hi -> lo <= ts < hi -> lo <= ts - (ts + tz) mod 86400 ->
  midnight clk ts = Ok (ts - (ts + tz) mod 86400).
Proof.
  intros Hsteady Hts Hlo. unfold midnight, date, timetuple.
  destruct (Hsteady ts Hts) as [-> _].
  pose proof (Z.div_mod (ts + tz) 86400 ltac:(lia)) as Hdiv.
  pose proof (Z.mod_pos_bound (ts + tz) 86400 ltac:(lia)) as Hmod.
  replace ((ts + tz) / 86400 * 86400) with (ts - (ts + tz) mod 86400 + tz) by lia.
  apply Hsteady. lia.
Qed.

(** The loop of [compute_commit_time_period], from any [(min_time, max_time)]:
    the bounds only widen, they enclose the time of day of every commit
    seen, and each is the initial one or the time of day of a commit
    seen. *)
Lemma loop_spec clk logs mn0 mx0 mn mx :
  loop clk logs (mn0, mx0) = Ok (mn, mx) ->
  (mn <= mn0 /\ mx0 <= mx) /\
  (forall c, c ∈ logs ->
     exists t, time_of_day clk (author_date c) = Ok t /\ mn <= t <= mx) /\
  (mn = mn0 \/ exists c, c ∈ logs /\ time_of_day clk (author_date c) = Ok mn) /\
  (mx = mx0 \/ exists c, c ∈ logs /\ time_of_day clk (author_date c) = Ok mx).
Proof.
  revert mn0 mx0. induction logs as [|c logs IH]; intros mn0 mx0.
  - intros [= <- <-]. split; [lia|]. split; [|auto].
    intros c' Hc'. inversion Hc'.
  - cbn [loop step].
    destruct (time_of_day clk (author_date c)) as [t|e] eqn:Ht; [|discriminate].
    intros H. apply IH in H.
    destruct H as ((Hmn & Hmx) & Hall & Hmin & Hmax).
    destruct (Z.ltb_spec mx0 t), (Z.ltb_spec t mn0);
      (split; [lia|]);
      (split; [intros c' [->|Hc']%elem_of_cons;
                 [exists t; split; [exact Ht|lia]|auto]|]);
      (split;
        [ destruct Hmin as [->|(c' & Hc' & E)];
            [ first [ now left | right; exists c; split; [left|exact Ht] ]
            | right; exists c'; split; [now right|exact E] ]
        | destruct Hmax as [->|(c' & Hc' & E)];
            [ first [ now left | right; exists c; split; [left|exact Ht] ]
            | right; exists c'; split; [now right|exact E] ] ]).
Qed.

(** The loop raises what [fromtimestamp] raises on the first date it
    rejects, and returns when it accepts them all. *)
Lemma loop_returns clk logs acc :
  (forall c, c ∈ logs -> exists t, time_of_day clk (author_date c) = Ok t) ->
  exists mn mx, loop clk logs acc = Ok (mn, mx).
Proof.
  revert acc. induction logs as [|c logs IH]; intros [mn0 mx0] Hall.
  - exists mn0, mx0. reflexivity.
  - cbn [loop step]. destruct (Hall c ltac:(left)) as [t ->].
    apply IH. intros c' Hc'. apply Hall. now right.
Qed.
End EnvelopeFacts.

(** * Counting with [filter] *)

Section FilterFacts.
Context {A B : Type}.

Lemma length_filter_ext (P Q : A -> Prop)
    `{!forall x, Decision (P x), !forall x, Decision (Q x)} (l : list A) :
  (forall x, x ∈ l -> P x <-> Q x) ->
  length (filter P l) = length (filter Q l).
Proof.
  induction l as [|x l IH]; intros Hin; [reflexivity|].
  assert (Hl : forall y, y ∈ l -> P y <-> Q y) by (intros y Hy; apply Hin; now right).
  specialize (IH Hl). specialize (Hin x ltac:(left)).
  destruct (decide (P x)) as [Hp|Hp].
  - rewrite !filter_cons_True by tauto. cbn [length]. now rewrite IH.
  - rewrite !filter_cons_False by tauto. exact IH.
Qed.

Lemma length_filter_all (P : A -> Prop) `{!forall x, Decision (P x)} (l : list A) :
  (forall x, x ∈ l -> P x) -> length (filter P l) = length l.
Proof.
  induction l as [|x l IH]; intros Hin; [reflexivity|].
  rewrite filter_cons_True by (apply Hin; left). cbn [length].
  rewrite IH; [reflexivity|]. intros y Hy. apply Hin. now right.
Qed.

Lemma length_filter_none (P : A -> Prop) `{!forall x, Decision (P x)} (l : list A) :
  (forall x, x ∈ l -> ~ P x) -> length (filter P l) = 0%nat.
Proof.
  induction l as [|x l IH]; intros Hin; [reflexivity|].
  rewrite filter_cons_False by (apply Hin; left).
  apply IH. intros y Hy. apply Hin. now right.
Qed.

Lemma length_filter_fmap (f : A -> B) (P : B -> Prop)
    `{!forall y, Decision (P y)} (l : list A) :
  length (filter P (f <$> l)) = length (filter (fun x => P (f x)) l).
Proof.
  induction l as [|x l IH]; [reflexivity|].
  cbn [fmap list_fmap]. destruct (decide (P (f x))) as [Hp|Hp].
  - rewrite !filter_cons_True by exact Hp. cbn [length]. now rewrite IH.
  - rewrite !filter_cons_False by exact Hp. exact IH.
Qed.
End FilterFacts.

(** * Facts about redistribute_commits *)

Section PlanFacts.
Import Redistribute.

(** Positions [sum(plan[:d]) .. sum(plan[:d+1]) - 1] belong to day [d]. *)
Lemma day_of_prefix plan d n k :
  plan !! d = Some n ->
  (sum_list (take d plan) <= k < sum_list (take d plan) + n)%nat ->
  day_of plan k = d.
Proof.
  revert d k. induction plan as [|n0 rest IH]; intros d k; [discriminate|].
  destruct d as [|d]; cbn [take sum_list_with day_of id].
  - intros [= ->] Hk. destruct (Nat.ltb_spec k n); [reflexivity|lia].
  - intros Hd Hk. destruct (Nat.ltb_spec k n0); [lia|].
    f_equal. apply (IH d); [exact Hd|lia].
Qed.

Lemma day_of_mono plan j k : (j <= k)%nat -> (day_of plan j <= day_of plan k)%nat.
Proof.
  revert j k. induction plan as [|n0 rest IH]; intros j k Hjk; [reflexivity|].
  cbn [day_of].
  destruct (Nat.ltb_spec j n0), (Nat.ltb_spec k n0); try lia.
  apply le_n_S, IH. lia.
Qed.

Lemma day_of_bound plan k : (k < sum_list plan)%nat -> (day_of plan k < length plan)%nat.
Proof.
  revert k. induction plan as [|n0 rest IH]; intros k;
    cbn [day_of sum_list_with id length]; [lia|].
  intros Hk. destruct (Nat.ltb_spec k n0); [lia|].
  apply -> Nat.succ_lt_mono. apply IH. lia.
Qed.

(** The plan's entry for day [d] is the number of positions of day [d]. *)
Lemma day_of_count plan d :
  length (filter (fun k => day_of plan k = d) (seq 0 (sum_list plan)))
  = default 0%nat (plan !! d).
Proof.
  revert d. induction plan as [|n0 rest IH]; intros d; [now destruct d|].
  cbn [sum_list_with id].
  rewrite seq_app, filter_app, length_app, Nat.add_0_l.
  replace (seq n0 (sum_list rest)) with (Nat.add n0 <$> seq 0 (sum_list rest))
    by (rewrite fmap_add_seq; f_equal; lia).
  rewrite length_filter_fmap.
  destruct d as [|d].
  - rewrite length_filter_all, length_seq.
    2:{ intros k [_ Hk]%elem_of_seq. cbn [day_of].
        destruct (Nat.ltb_spec k n0); [reflexivity|lia]. }
    rewrite length_filter_none; [simpl; lia|].
    intros k _. cbn [day_of]. destruct (Nat.ltb_spec (n0 + k) n0); [lia|discriminate].
  - rewrite length_filter_none.
    2:{ intros k [_ Hk]%elem_of_seq. cbn [day_of].
        destruct (Nat.ltb_spec k n0); [discriminate|lia]. }
    change (default 0%nat ((n0 :: rest) !! S d)) with (default 0%nat (rest !! d)).
    rewrite <- IH. apply length_filter_ext.
    intros k _. cbn [day_of]. destruct (Nat.ltb_spec (n0 + k) n0); [lia|].
    replace (n0 + k - n0)%nat with k by lia.
    split; [now intros [= ->]|now intros ->].
Qed.

Lemma sum_list_take_le (plan : list nat) d :
  (sum_list (take d plan) <= sum_list plan)%nat.
Proof.
  rewrite <- (take_drop d plan) at 2. rewrite sum_list_with_app. lia.
Qed.

Lemma sum_list_take_S (plan : list nat) d n :
  plan !! d = Some n ->
  sum_list (take (S d) plan) = (sum_list (take d plan) + n)%nat.
Proof.
  intros H. rewrite (take_S_r _ _ _ H), sum_list_with_app. cbn. lia.
Qed.

Lemma sum_list_take_mono (plan : list nat) d m :
  (sum_list (take d plan) <= sum_list (take (d + m) plan))%nat.
Proof.
  replace (take d plan) with (take d (take (d + m) plan))
    by (rewrite take_take; f_equal; lia).
  apply sum_list_take_le.
Qed.
End PlanFacts.

Section IndexFacts.

Lemma index_inside len k : (k < len)%nat -> Py.index len (Z.of_nat k) = Some k.
Proof.
  intros H. unfold Py.index.
  destruct (Z.leb_spec 0 (Z.of_nat k)); [|lia].
  destruct (Z.ltb_spec (Z.of_nat k) (Z.of_nat len)); [|lia].
  cbn. f_equal. lia.
Qed.

Lemma index_beyond len k : (len <= k)%nat -> Py.index len (Z.of_nat k) = None.
Proof.
  intros H. unfold Py.index.
  destruct (Z.ltb_spec (Z.of_nat k) (Z.of_nat len)); [lia|].
  destruct (Z.ltb_spec (Z.of_nat k) 0); [lia|].
  now rewrite andb_false_r.
Qed.

Lemma get_inside {A} (l : list A) k :
  0 <= k ->
  Py.get l k
  = match l !! Z.to_nat k with Some x => Ok x | None => Raise IndexError end.
Proof.
  intros Hk. unfold Py.get.
  rewrite <- (Z2Nat.id k) at 1 by exact Hk.
  destruct (le_lt_dec (length l) (Z.to_nat k)) as [Hge|Hlt].
  - rewrite index_beyond by exact Hge. now rewrite lookup_ge_None_2.
  - now rewrite index_inside by exact Hlt.
Qed.
End IndexFacts.

Section LoopFacts.
Import LocalTime Envelope Redistribute.
Variable rand : nat -> Z.
Variable plan : list nat.
Variables min_time max_time start_date : Z.
Variable logs0 : list commit.
Variable a : nat.

(** One more write keeps the invariant. *)
Lemma written_upto_step p s day :
  written_upto rand plan min_time max_time start_date logs0 a p s ->
  (a + p < length logs0)%nat ->
  start_date + Z.of_nat (day_of plan p) * 24 * 3600 = day ->
  written_upto rand plan min_time max_time start_date logs0 a (S p)
    {| st_logs := alter (fun c => set_dates c (day + draw rand min_time max_time p))
                    (a + p)%nat (st_logs s);
       st_num_commit := st_num_commit s + 1;
       st_draws := S (st_draws s);
       st_written := st_written s ++ [(a + p)%nat] |}.
Proof.
  intros [Hnum Hdraws Hwritten Hinside Hlen Hlogs] Hlt Hday.
  constructor; cbn [st_logs st_num_commit st_draws st_written].
  - lia.
  - now rewrite Hdraws.
  - now rewrite Hwritten, seq_S.
  - lia.
  - now rewrite length_alter.
  - intros k. destruct (decide (k = a + p)%nat) as [->|Hne].
    + rewrite list_lookup_alter_eq, Hlogs.
      rewrite decide_False by lia. rewrite decide_True by lia.
      unfold stamp. replace (a + p - a)%nat with p by lia.
      now rewrite Hday.
    + rewrite list_lookup_alter_ne by congruence. rewrite Hlogs.
      destruct (decide (a <= k < a + p)%nat), (decide (a <= k < a + S p)%nat);
        try reflexivity; lia.
Qed.

(** The inner loop, from a state that satisfies the invariant: whatever
    the outcome it holds after some [p' <= p + n] writes; the loop ends
    normally only after all [n] writes, which takes a non-empty range of
    times; and it does end normally when the range is not empty and the
    [n] positions exist. *)
Lemma day_loop_inv day n : forall p s s' r,
  written_upto rand plan min_time max_time start_date logs0 a p s ->
  (forall k, (p <= k < p + n)%nat ->
     start_date + Z.of_nat (day_of plan k) * 24 * 3600 = day) ->
  day_loop rand min_time max_time day n s = (s', r) ->
  exists p',
    written_upto rand plan min_time max_time start_date logs0 a p' s' /\
    (p <= p' <= p + n)%nat /\
    (r = Ok tt -> p' = (p + n)%nat /\ ((0 < n)%nat -> min_time <= max_time)) /\
    (min_time <= max_time -> (a + p + n <= length logs0)%nat -> r = Ok tt).
Proof.
  induction n as [|n IH]; intros p s s' r Hinv Hday.
  - intros [= <- <-]. exists p. split; [exact Hinv|]. split; [lia|].
    split; [intros _; split; lia|reflexivity].
  - cbn [day_loop]. unfold Py.randint.
    destruct (Z.ltb_spec max_time min_time) as [Hempty|Hrange].
    { intros [= <- <-]. exists p. split; [exact Hinv|]. split; [lia|].
      split; [discriminate|lia]. }
    pose proof Hinv as [Hnum Hdraws _ _ Hlength _].
    destruct s as [l num dr wr]. cbn [st_logs st_num_commit st_draws st_written] in *.
    subst num dr. rewrite Hlength.
    destruct (le_lt_dec (length logs0) (a + p)) as [Hge|Hlt].
    { rewrite index_beyond by exact Hge.
      intros [= <- <-]. exists p. split; [exact Hinv|]. split; [lia|].
      split; [discriminate|lia]. }
    rewrite index_inside by exact Hlt.
    intros Hrun.
    apply (IH (S p)) in Hrun.
    + destruct Hrun as (p' & Hinv' & Hp' & Hok & Hdone).
      exists p'. split; [exact Hinv'|]. split; [lia|]. split.
      * intros Hr. destruct (Hok Hr) as [-> _]. split; [lia|auto].
      * intros H1 H2. apply Hdone; [exact H1|lia].
    + apply (written_upto_step p _ day Hinv Hlt). apply Hday. lia.
    + intros k Hk. apply Hday. lia.
Qed.

(** The outer loop over days [d .. d + m - 1]. *)
Lemma days_loop_inv m : forall d s s' r,
  written_upto rand plan min_time max_time start_date logs0 a
    (sum_list (take d plan)) s ->
  (d + m <= length plan)%nat ->
  days_loop rand plan min_time max_time start_date (seq d m) s = (s', r) ->
  exists p',
    written_upto rand plan min_time max_time start_date logs0 a p' s' /\
    (sum_list (take d plan) <= p' <= sum_list (take (d + m) plan))%nat /\
    (r = Ok tt ->
       p' = sum_list (take (d + m) plan) /\
       ((sum_list (take d plan) < sum_list (take (d + m) plan))%nat ->
          min_time <= max_time)) /\
    (min_time <= max_time ->
     (a + sum_list (take (d + m) plan) <= length logs0)%nat -> r = Ok tt).
Proof.
  induction m as [|m IH]; intros d s s' r Hinv Hlen.
  - intros [= <- <-]. rewrite Nat.add_0_r.
    exists (sum_list (take d plan)). split; [exact Hinv|]. split; [lia|].
    split; [intros _; split; [reflexivity|lia]|reflexivity].
  - cbn [seq days_loop].
    destruct (lookup_lt_is_Some_2 plan d) as [n Hn]; [lia|]. rewrite Hn.
    pose proof (sum_list_take_S plan d n Hn) as HS.
    pose proof (sum_list_take_mono plan (S d) m) as Hmono.
    replace (S d + m)%nat with (d + S m)%nat in * by lia.
    destruct (day_loop rand min_time max_time
                (start_date + Z.of_nat d * 24 * 3600) n s) as [s1 r1] eqn:E1.
    apply day_loop_inv with (p := sum_list (take d plan)) in E1; [|exact Hinv|].
    2:{ intros k Hk. now rewrite (day_of_prefix plan d n k Hn Hk). }
    destruct E1 as (p1 & Hinv1 & Hp1 & Hok1 & Hdone1).
    destruct r1 as [[]|e].
    + destruct (Hok1 eq_refl) as [-> Hne].
      rewrite <- HS in Hinv1. intros Hrun.
      apply IH in Hrun; [|exact Hinv1|lia].
      replace (S d + m)%nat with (d + S m)%nat in * by lia.
      destruct Hrun as (p' & Hinv' & Hp' & Hok & Hdone).
      exists p'. split; [exact Hinv'|]. split; [lia|]. split; [|exact Hdone].
      intros Hr. destruct (Hok Hr) as [-> Hne']. split; [reflexivity|].
      intros Hlt. destruct (Nat.eq_dec n 0%nat) as [->|Hn0].
      * apply Hne'. lia.
      * apply Hne. lia.
    + intros [= <- <-]. exists p1. split; [exact Hinv1|]. split; [lia|].
      split; [discriminate|].
      intros H1 H2. exfalso. assert (Raise e = Ok tt) by (apply Hdone1; [exact H1|lia]).
      discriminate.
Qed.
End LoopFacts.
Section RunFacts.
Import LocalTime Envelope Redistribute.
Variable clk : clock.
Variable rand : nat -> Z.

Lemma compute_commit_time_period_bounds logs mn mx :
  compute_commit_time_period clk logs = Ok (mn, mx) ->
  0 <= mn <= 86400 /\ 0 <= mx < 86400.
Proof.
  intros H. apply loop_spec in H as ((Hmn & Hmx) & _ & Hmin & Hmax).
  destruct Hmin as [->|(c & _ & Hc%time_of_day_range)],
           Hmax as [->|(c' & _ & Hc'%time_of_day_range)]; lia.
Qed.

Lemma draw_range mn mx k : mn <= mx -> mn <= draw rand mn mx k <= mx.
Proof.
  intros H. unfold draw.
  pose proof (Z.mod_pos_bound (rand k) (mx - mn + 1) ltac:(lia)). lia.
Qed.

Lemma written_upto_start plan mn mx sd logs a :
  (a <= length logs)%nat ->
  written_upto rand plan mn mx sd logs a 0 (State logs (Z.of_nat a) 0 []).
Proof.
  intros H. constructor; cbn [st_logs st_num_commit st_draws st_written];
    try reflexivity; try lia.
  intros k. rewrite decide_False by lia. reflexivity.
Qed.

(** When a date of the slice cannot be read, the call raises before it
    writes. *)
Lemma run_envelope_raises logs anchor plan e :
  length plan = 29%nat ->
  envelope clk logs anchor plan = Raise e ->
  run clk rand logs anchor plan = (State logs anchor 0 [], Raise e).
Proof.
  intros Hlen Henv. unfold run. rewrite Hlen, Henv. reflexivity.
Qed.

(** The whole call with a plan of 29 days, a window that does not start
    before the list and an envelope that was computed: either
    [logs[start_commit]] does not exist or its day cannot be told, and
    nothing happened, or the loops ran from the invariant's initial
    state. *)
Lemma run_inv logs anchor plan mn mx s' r :
  length plan = 29%nat ->
  0 <= start_commit anchor plan ->
  envelope clk logs anchor plan = Ok (mn, mx) ->
  run clk rand logs anchor plan = (s', r) ->
  (s' = State logs anchor 0 [] /\
   exists e, r = Raise e /\
     ((length logs <= Z.to_nat (start_commit anchor plan))%nat \/
      exists first,
        logs !! Z.to_nat (start_commit anchor plan) = Some first /\
        midnight clk (author_date first) = Raise e)) \/
  exists first sd p,
    logs !! Z.to_nat (start_commit anchor plan) = Some first /\
    midnight clk (author_date first) = Ok sd /\
    written_upto rand plan mn mx sd logs
      (Z.to_nat (start_commit anchor plan)) p s' /\
    (p <= sum_list plan)%nat /\
    (r = Ok tt -> p = sum_list plan /\ ((0 < sum_list plan)%nat -> mn <= mx)) /\
    (mn <= mx -> anchor < Z.of_nat (length logs) -> r = Ok tt).
Proof.
  intros Hlen Hstart Henv. unfold run.
  rewrite Hlen, Henv. cbn [Nat.eqb negb].
  rewrite get_inside by exact Hstart.
  set (a := Z.to_nat (start_commit anchor plan)).
  destruct (logs !! a) as [first|] eqn:Hfirst.
  2:{ intros [= <- <-]. left. apply lookup_ge_None in Hfirst.
      split; [reflexivity|]. exists IndexError. auto. }
  destruct (midnight clk (author_date first)) as [sd|e] eqn:Hsd.
  2:{ intros [= <- <-]. left. split; [reflexivity|]. exists e. split; [reflexivity|].
      right. exists first. auto. }
  intros Hrun. right. exists first, sd.
  assert (Ha : (a < length logs)%nat) by (apply lookup_lt_is_Some; eauto).
  replace (start_commit anchor plan) with (Z.of_nat a) in Hrun by (unfold a; lia).
  apply (days_loop_inv rand plan mn mx _ logs a 29 0) in Hrun.
  - cbn [take sum_list_with] in Hrun.
    rewrite (take_ge plan (0 + 29)) in Hrun by lia.
    destruct Hrun as (p & Hinv & Hp & Hok & Hdone).
    exists p. split; [reflexivity|]. split; [exact Hsd|].
    split; [exact Hinv|]. split; [lia|].
    split; [exact Hok|].
    intros H1 H2. apply Hdone; [exact H1|].
    unfold a, start_commit, total_commits in *. lia.
  - apply written_upto_start. lia.
  - lia.
Qed.
End RunFacts.

(** * The time envelope *)

Section EnvelopeClaims.
Import LocalTime Envelope.

(** C9: on a non-empty slice, what [compute_commit_time_period] returns is
    [(min, max)] with [min <= t <= max] for the time of day [t] of every
    commit of the slice; [min] and [max] are each the time of day of some
    commit of the slice; and on a slice of one commit both are that
    commit's time of day.  This holds for every local clock. *)
Theorem compute_commit_time_period_encloses clk logs mn mx :
  logs <> [] ->
  compute_commit_time_period clk logs = Ok (mn, mx) ->
  (forall c, c ∈ logs ->
     exists t, time_of_day clk (author_date c) = Ok t /\ mn <= t <= mx) /\
  (exists c, c ∈ logs /\ time_of_day clk (author_date c) = Ok mn) /\
  (exists c, c ∈ logs /\ time_of_day clk (author_date c) = Ok mx) /\
  (forall c, logs = [c] ->
     time_of_day clk (author_date c) = Ok mn /\ mx = mn).
Proof.
  intros Hne H. apply loop_spec in H as (_ & Hall & Hmin & Hmax).
  destruct logs as [|c0 rest]; [congruence|].
  destruct (Hall c0 ltac:(left)) as (t0 & Ht0 & H0).
  pose proof (time_of_day_range clk _ _ Ht0) as Hr.
  assert (Hmin' : exists c, c ∈ c0 :: rest /\ time_of_day clk (author_date c) = Ok mn).
  { destruct Hmin as [->|Hmin]; [lia|exact Hmin]. }
  assert (Hmax' : exists c, c ∈ c0 :: rest /\ time_of_day clk (author_date c) = Ok mx).
  { destruct Hmax as [->|Hmax]; [|exact Hmax].
    exists c0. split; [left|]. rewrite Ht0. f_equal. lia. }
  split; [exact Hall|]. split; [exact Hmin'|]. split; [exact Hmax'|].
  intros c [= -> ->].
  destruct Hmin' as (c1 & ->%list_elem_of_singleton & Hc1).
  destruct Hmax' as (c2 & ->%list_elem_of_singleton & Hc2).
  split; [exact Hc1|congruence].
Qed.

Lemma compute_commit_time_period_encloses_witness :
  Samples.daily 3 <> [] /\
  compute_commit_time_period (fixed_offset 0) (Samples.daily 3) = Ok (32400, 33600) /\
  forall c, c ∈ Samples.daily 3 ->
    exists t, time_of_day (fixed_offset 0) (author_date c) = Ok t /\
      32400 <= t <= 33600.
Proof.
  assert (H1 : Samples.daily 3 <> []) by discriminate.
  assert (H2 : compute_commit_time_period (fixed_offset 0) (Samples.daily 3)
               = Ok (32400, 33600)) by reflexivity.
  split; [exact H1|]. split; [exact H2|].
  exact (proj1 (compute_commit_time_period_encloses (fixed_offset 0)
                  (Samples.daily 3) 32400 33600 H1 H2)).
Defined.
End EnvelopeClaims.

(** * The redistribution *)

Section RedistributeClaims.
Import LocalTime Envelope Redistribute.

(** The slice handed to [compute_commit_time_period] stops one short of
    [num_commit]: it is the window without its last record. *)
Lemma envelope_slice clk logs anchor plan :
  0 <= start_commit anchor plan ->
  0 <= anchor < Z.of_nat (length logs) ->
  envelope clk logs anchor plan =
    compute_commit_time_period clk
      (window logs (start_commit anchor plan) (total_commits plan - 1)).
Proof.
  intros Hstart Hanchor. unfold envelope, window, Py.slice, Py.bound.
  unfold start_commit, total_commits in *.
  destruct (Z.ltb_spec (anchor - Z.of_nat (sum_list plan) + 1) 0); [lia|].
  destruct (Z.ltb_spec anchor 0); [lia|].
  f_equal. f_equal; [|f_equal]; lia.
Qed.

(** C5: when the plan does not have exactly 29 entries the call raises, and
    it does so before any write: the logs are as they were and no position
    was written. *)
Theorem wrong_plan_length_aborts clk rand logs anchor plan :
  length plan <> 29%nat ->
  redistribute_commits clk rand logs anchor plan = (logs, Raise TypeError) /\
  st_written (fst (run clk rand logs anchor plan)) = [].
Proof.
  intros H. unfold redistribute_commits, run.
  destruct (Nat.eqb_spec (length plan) 29); [contradiction|].
  split; reflexivity.
Qed.

Lemma wrong_plan_length_aborts_witness :
  length Samples.plan28days <> 29%nat /\
  redistribute_commits (fixed_offset 0) Samples.jumping (Samples.daily 60) 59
    Samples.plan28days
  = (Samples.daily 60, Raise TypeError).
Proof.
  assert (H : length Samples.plan28days <> 29%nat) by (vm_compute; lia).
  split; [exact H|].
  exact (proj1 (wrong_plan_length_aborts (fixed_offset 0) Samples.jumping
                  (Samples.daily 60) 59 Samples.plan28days H)).
Defined.
End RedistributeClaims.
Section WindowClaims.
Import LocalTime Envelope Redistribute.
Variable clk : clock.
Variable rand : nat -> Z.

(** After [p] writes the record at window position [j < p] is the old one
    with both dates set to the [j]-th stamp. *)
Lemma written_upto_lookup plan mn mx sd logs a p s j :
  written_upto rand plan mn mx sd logs a p s -> (j < p)%nat ->
  exists c, logs !! (a + j)%nat = Some c /\
    st_logs s !! (a + j)%nat = Some (set_dates c (stamp rand plan mn mx sd j)).
Proof.
  intros [_ _ _ Hinside _ Hlogs] Hj.
  destruct (lookup_lt_is_Some_2 logs (a + j)) as [c Hc]; [lia|].
  exists c. split; [exact Hc|].
  rewrite Hlogs, decide_True by lia. rewrite Hc. cbn.
  now replace (a + j - a)%nat with j by lia.
Qed.

(** A stamp is a number of whole days after the start date plus a time
    from the envelope. *)
Lemma stamp_range plan mn mx sd j :
  0 <= mn -> mn <= mx -> mx < 86400 -> (j < sum_list plan)%nat ->
  length plan = 29%nat ->
  let d := Z.of_nat (day_of plan j) in
  let t := draw rand mn mx j in
  stamp rand plan mn mx sd j = sd + d * 86400 + t /\
  0 <= d < 29 /\ mn <= t <= mx /\
  sd + d * 86400 <= stamp rand plan mn mx sd j < sd + (d + 1) * 86400.
Proof.
  intros H0 Hle H1 Hj Hlen. cbn zeta. unfold stamp.
  pose proof (draw_range rand mn mx j Hle).
  pose proof (day_of_bound plan j Hj). lia.
Qed.

(** What a stamp looks like on the local calendar, while the clock keeps
    its offset from the day before [ts] to 29 days after it. *)
Lemma stamp_calendar tz ts plan mn mx sd j :
  steady clk tz (ts - 86400) (ts + 29 * 86400) ->
  midnight clk ts = Ok sd ->
  0 <= mn -> mn <= mx -> mx < 86400 -> (day_of plan j < 29)%nat ->
  midnight clk (stamp rand plan mn mx sd j)
  = Ok (sd + Z.of_nat (day_of plan j) * 86400) /\
  time_of_day clk (stamp rand plan mn mx sd j) = Ok (draw rand mn mx j).
Proof.
  intros Hsteady Hsd H0 Hle H1 Hday.
  pose proof (Z.mod_pos_bound (ts + tz) 86400 ltac:(lia)) as Hmod.
  pose proof (Z.div_mod (ts + tz) 86400 ltac:(lia)) as Hdiv.
  rewrite (steady_midnight clk tz _ _ ts Hsteady) in Hsd by lia.
  injection Hsd as <-.
  pose proof (draw_range rand mn mx j Hle) as Hd.
  unfold stamp.
  set (D := Z.of_nat (day_of plan j)) in *.
  set (t := draw rand mn mx j) in *.
  assert (HD : 0 <= D < 29) by (unfold D; lia).
  assert (Htod : (ts - (ts + tz) mod 86400 + D * 24 * 3600 + t + tz) mod 86400 = t).
  { replace (ts - (ts + tz) mod 86400 + D * 24 * 3600 + t + tz)
      with (t + ((ts + tz) / 86400 + D) * 86400) by lia.
    rewrite Z.mod_add by lia. apply Z.mod_small. lia. }
  split.
  - rewrite (steady_midnight clk tz _ _ _ Hsteady) by lia.
    rewrite Htod. f_equal. lia.
  - rewrite (steady_time_of_day clk tz _ _ _ Hsteady) by lia.
    now rewrite Htod.
Qed.
(** What a call that ends normally has done, for a plan of 29 days and a
    window that does not start before the list. *)
Lemma normal_end logs anchor plan logs' :
  length plan = 29%nat ->
  0 <= start_commit anchor plan ->
  redistribute_commits clk rand logs anchor plan = (logs', Ok tt) ->
  exists mn mx first sd,
    envelope clk logs anchor plan = Ok (mn, mx) /\
    logs !! Z.to_nat (start_commit anchor plan) = Some first /\
    midnight clk (author_date first) = Ok sd /\
    (0 <= mn <= 86400 /\ 0 <= mx < 86400) /\
    ((0 < sum_list plan)%nat -> mn <= mx) /\
    (Z.to_nat (start_commit anchor plan) + sum_list plan <= length logs)%nat /\
    length logs' = length logs /\
    st_written (fst (run clk rand logs anchor plan))
    = seq (Z.to_nat (start_commit anchor plan)) (sum_list plan) /\
    forall j, (j < sum_list plan)%nat ->
      exists c,
        logs !! (Z.to_nat (start_commit anchor plan) + j)%nat = Some c /\
        logs' !! (Z.to_nat (start_commit anchor plan) + j)%nat
        = Some (set_dates c (stamp rand plan mn mx sd j)).
Proof.
  intros Hlen Hstart. unfold redistribute_commits.
  destruct (run clk rand logs anchor plan) as [s' r] eqn:Hrun.
  intros [= <- ->].
  destruct (envelope clk logs anchor plan) as [[mn mx]|e] eqn:Henv.
  2:{ rewrite (run_envelope_raises clk rand logs anchor plan e Hlen Henv) in Hrun.
      discriminate. }
  destruct (run_inv clk rand logs anchor plan mn mx s' (Ok tt) Hlen Hstart Henv Hrun)
    as [(_ & e & [=] & _)|(first & sd & p & Hfirst & Hsd & Hinv & _ & Hok & _)].
  destruct (Hok eq_refl) as [-> Hrange]. clear Hok.
  exists mn, mx, first, sd.
  split; [reflexivity|]. split; [exact Hfirst|]. split; [exact Hsd|].
  split; [exact (compute_commit_time_period_bounds clk _ _ _ Henv)|].
  split; [exact Hrange|].
  split; [exact (wu_inside _ _ _ _ _ _ _ _ _ Hinv)|].
  split; [exact (wu_length _ _ _ _ _ _ _ _ _ Hinv)|].
  split; [exact (wu_written _ _ _ _ _ _ _ _ _ Hinv)|].
  intros j Hj. exact (written_upto_lookup plan mn mx sd logs _ _ s' j Hinv Hj).
Qed.

(** The rewritten window, as a list. *)
Lemma window_stamps (logs logs' : list commit) (a total : nat) (stamps : nat -> Z)
    (first : commit) :
  (forall j, (j < total)%nat ->
     exists c, logs !! (a + j)%nat = Some c /\
       logs' !! (a + j)%nat = Some (set_dates c (stamps j))) ->
  exists f : nat -> commit,
    take total (drop a logs') = f <$> seq 0 total /\
    forall j, (j < total)%nat -> author_date (f j) = stamps j.
Proof.
  intros Hlookup.
  exists (fun j => default first
            ((fun c => set_dates c (stamps j)) <$> logs !! (a + j)%nat)).
  split.
  - apply list_eq. intros j. rewrite list_lookup_fmap.
    destruct (le_lt_dec total j) as [Hge|Hlt].
    + rewrite lookup_take_ge, lookup_seq_ge by exact Hge. reflexivity.
    + rewrite lookup_take_lt, lookup_drop, lookup_seq_lt by exact Hlt.
      destruct (Hlookup j Hlt) as (c & Hc & ->). cbn. now rewrite Hc.
  - intros j Hj. destruct (Hlookup j Hj) as (c & -> & _). reflexivity.
Qed.

(** C3, as amended: after a call with a plan of 29 days whose window starts
    inside the list, every record of the window has equal author and
    committer dates, made of the midnight of the day of the old author
    date of the window's first record, a whole number [d < 29] of days of
    86400 seconds, and a time from the envelope the call computed; [d] is
    the day of the plan, which gets as many records as the plan says.
    While the local clock keeps one offset from the day before the first
    record's old date to 29 days after it, these are 29 consecutive
    calendar days, on which the records fall at times of day inside the
    envelope. *)
Theorem redistribute_commits_dates logs anchor plan mn mx logs' :
  length plan = 29%nat ->
  0 <= start_commit anchor plan ->
  envelope clk logs anchor plan = Ok (mn, mx) ->
  redistribute_commits clk rand logs anchor plan = (logs', Ok tt) ->
  exists first sd,
    logs !! Z.to_nat (start_commit anchor plan) = Some first /\
    midnight clk (author_date first) = Ok sd /\
    anchor < Z.of_nat (length logs) /\
    (forall k c,
       start_commit anchor plan <= Z.of_nat k <= anchor ->
       logs' !! k = Some c ->
       author_date c = committer_date c /\
       exists d t, 0 <= d < 29 /\ mn <= t <= mx /\ 0 <= t < 86400 /\
         author_date c = sd + d * 86400 + t) /\
    (forall d, (d < 29)%nat ->
       length (filter
                 (fun c => sd + Z.of_nat d * 86400 <= author_date c
                           < sd + (Z.of_nat d + 1) * 86400)
                 (window logs' (start_commit anchor plan) (total_commits plan)))
       = default 0%nat (plan !! d)) /\
    (forall tz,
       steady clk tz (author_date first - 86400) (author_date first + 29 * 86400) ->
       (forall k c,
          start_commit anchor plan <= Z.of_nat k <= anchor ->
          logs' !! k = Some c ->
          (exists d, 0 <= d < 29 /\
             midnight clk (author_date c) = Ok (sd + d * 86400)) /\
          (exists t, time_of_day clk (author_date c) = Ok t /\ mn <= t <= mx)) /\
       (forall d, (d < 29)%nat ->
          length (filter
                    (fun c => midnight clk (author_date c)
                              = Ok (sd + Z.of_nat d * 86400))
                    (window logs' (start_commit anchor plan) (total_commits plan)))
          = default 0%nat (plan !! d))).
Proof.
  intros Hlen Hstart Henv Hrun.
  destruct (normal_end logs anchor plan logs' Hlen Hstart Hrun)
    as (mn' & mx' & first & sd & Henv' & Hfirst & Hsd & Hb & Hrange & Hinside &
        Hlength & _ & Hlookup).
  rewrite Henv in Henv'. injection Henv' as <- <-.
  set (a := Z.to_nat (start_commit anchor plan)) in *.
  assert (Hanchor : anchor = Z.of_nat a + Z.of_nat (sum_list plan) - 1)
    by (unfold a, start_commit, total_commits in *; lia).
  assert (Hrecord : forall k c,
            start_commit anchor plan <= Z.of_nat k <= anchor ->
            logs' !! k = Some c ->
            (k - a < sum_list plan)%nat /\ mn <= mx /\
            author_date c = stamp rand plan mn mx sd (k - a) /\
            committer_date c = stamp rand plan mn mx sd (k - a)).
  { intros k c Hk Hc.
    assert (Hj : (k - a < sum_list plan)%nat)
      by (unfold a, start_commit, total_commits in *; lia).
    destruct (Hlookup _ Hj) as (c0 & _ & Hc').
    replace (a + (k - a))%nat with k in Hc'
      by (unfold a, start_commit, total_commits in *; lia).
    rewrite Hc in Hc'. injection Hc' as ->.
    split; [exact Hj|]. split; [apply Hrange; lia|]. split; reflexivity. }
  destruct (window_stamps logs logs' a (sum_list plan)
              (stamp rand plan mn mx sd) first Hlookup) as (f & Hwin & Hf).
  exists first, sd. split; [exact Hfirst|]. split; [exact Hsd|]. split; [lia|].
  split; [|split].
  - intros k c Hk Hc. destruct (Hrecord k c Hk Hc) as (Hj & Hle & Ha & Hcm).
    split; [congruence|].
    destruct (stamp_range plan mn mx sd (k - a)) as (Hs & Hd & Ht & _);
      [lia|lia|lia|exact Hj|exact Hlen|].
    exists (Z.of_nat (day_of plan (k - a))), (draw rand mn mx (k - a)).
    split; [exact Hd|]. split; [exact Ht|]. split; [lia|]. now rewrite Ha.
  - intros d Hd. unfold window, total_commits. fold a. rewrite Nat2Z.id.
    rewrite Hwin, length_filter_fmap, <- (day_of_count plan d).
    apply length_filter_ext. intros j [_ Hj]%elem_of_seq.
    rewrite (Hf j) by lia.
    destruct (stamp_range plan mn mx sd j) as (_ & _ & _ & Hs);
      [lia|apply Hrange; lia|lia|lia|exact Hlen|].
    split; [lia|]. intros <-. lia.
  - intros tz Hsteady. split.
    + intros k c Hk Hc. destruct (Hrecord k c Hk Hc) as (Hj & Hle & Ha & _).
      pose proof (day_of_bound plan (k - a) Hj) as Hday.
      destruct (stamp_calendar tz (author_date first) plan mn mx sd (k - a)
                  Hsteady Hsd) as [Hmid Htod]; [lia..|].
      rewrite Ha. split.
      * exists (Z.of_nat (day_of plan (k - a))). split; [lia|exact Hmid].
      * exists (draw rand mn mx (k - a)). split; [exact Htod|].
        now apply draw_range.
    + intros d Hd. unfold window, total_commits. fold a. rewrite Nat2Z.id.
      rewrite Hwin, length_filter_fmap, <- (day_of_count plan d).
      apply length_filter_ext. intros j [_ Hj]%elem_of_seq.
      rewrite (Hf j) by lia.
      pose proof (day_of_bound plan j ltac:(lia)) as Hday.
      destruct (stamp_calendar tz (author_date first) plan mn mx sd j Hsteady Hsd)
        as [Hmid _]; [lia|apply Hrange; lia|lia|lia|].
      rewrite Hmid. split; [intros [= H]; lia|intros ->; reflexivity].
Qed.

(** C6, as amended: after a call with a plan of 29 days whose window starts
    inside the list, a record of the window is never dated earlier than a
    record before it by more than the width of the envelope, which is less
    than a day, and of two records on different days of the plan the
    earlier one has the smaller author date.  While the local clock keeps
    one offset from the day before the first record's old date to 29 days
    after it, the calendar days of the author dates never go down along
    the window. *)
Theorem redistribute_commits_day_order logs anchor plan mn mx logs' :
  length plan = 29%nat ->
  0 <= start_commit anchor plan ->
  envelope clk logs anchor plan = Ok (mn, mx) ->
  redistribute_commits clk rand logs anchor plan = (logs', Ok tt) ->
  forall j k cj ck,
    start_commit anchor plan <= Z.of_nat j -> (j <= k)%nat -> Z.of_nat k <= anchor ->
    logs' !! j = Some cj -> logs' !! k = Some ck ->
    (author_date cj - author_date ck <= mx - mn /\ mx - mn < 86400) /\
    ((day_of plan (j - Z.to_nat (start_commit anchor plan))
      < day_of plan (k - Z.to_nat (start_commit anchor plan)))%nat ->
     author_date cj < author_date ck) /\
    (forall tz first mj mk,
       logs !! Z.to_nat (start_commit anchor plan) = Some first ->
       steady clk tz (author_date first - 86400) (author_date first + 29 * 86400) ->
       midnight clk (author_date cj) = Ok mj ->
       midnight clk (author_date ck) = Ok mk ->
       mj <= mk /\ (mj < mk -> author_date cj < author_date ck)).
Proof.
  intros Hlen Hstart Henv Hrun j k cj ck Hj Hjk Hk Hcj Hck.
  destruct (normal_end logs anchor plan logs' Hlen Hstart Hrun)
    as (mn' & mx' & first & sd & Henv' & Hfirst & Hsd & Hb & Hrange & Hinside &
        _ & _ & Hlookup).
  rewrite Henv in Henv'. injection Henv' as <- <-.
  set (a := Z.to_nat (start_commit anchor plan)) in *.
  assert (Hpos : (0 < sum_list plan)%nat)
    by (unfold a, start_commit, total_commits in *; lia).
  specialize (Hrange Hpos).
  assert (Hrecord : forall i c, start_commit anchor plan <= Z.of_nat i <= anchor ->
            logs' !! i = Some c ->
            (i - a < sum_list plan)%nat /\
            author_date c = stamp rand plan mn mx sd (i - a)).
  { intros i c Hi Hc.
    assert (Hlt : (i - a < sum_list plan)%nat)
      by (unfold a, start_commit, total_commits in *; lia).
    destruct (Hlookup _ Hlt) as (c0 & _ & Hc').
    replace (a + (i - a))%nat with i in Hc'
      by (unfold a, start_commit, total_commits in *; lia).
    rewrite Hc in Hc'. injection Hc' as ->. split; [exact Hlt|reflexivity]. }
  destruct (Hrecord j cj ltac:(lia) Hcj) as [Hjl Hdj].
  destruct (Hrecord k ck ltac:(lia) Hck) as [Hkl Hdk].
  destruct (stamp_range plan mn mx sd (j - a)) as (Hsj & HDj & Htj & _);
    [lia|lia|lia|exact Hjl|exact Hlen|].
  destruct (stamp_range plan mn mx sd (k - a)) as (Hsk & HDk & Htk & _);
    [lia|lia|lia|exact Hkl|exact Hlen|].
  pose proof (day_of_mono plan (j - a) (k - a) ltac:(lia)) as Hmono.
  rewrite Hdj, Hdk, Hsj, Hsk.
  split; [lia|]. split; [lia|].
  intros tz first' mj mk Hfirst' Hsteady Hmj Hmk.
  rewrite Hfirst in Hfirst'. injection Hfirst' as <-.
  pose proof (day_of_bound plan (j - a) Hjl) as Hbj.
  pose proof (day_of_bound plan (k - a) Hkl) as Hbk.
  destruct (stamp_calendar tz (author_date first) plan mn mx sd (j - a) Hsteady Hsd)
    as [Hcalj _]; [lia..|].
  destruct (stamp_calendar tz (author_date first) plan mn mx sd (k - a) Hsteady Hsd)
    as [Hcalk _]; [lia..|].
  rewrite Hsj in Hcalj. rewrite Hsk in Hcalk.
  rewrite Hcalj in Hmj. rewrite Hcalk in Hmk.
  injection Hmj as <-. injection Hmk as <-. lia.
Qed.
End WindowClaims.

Section Runs.
Import LocalTime Envelope Redistribute.

Lemma fixed_offset_steady tz lo hi : steady (fixed_offset tz) tz lo hi.
Proof. intros ts _. cbn. split; [reflexivity|]. f_equal. lia. Qed.

Lemma elem_of_slice {A} (l : list A) a b x : x ∈ Py.slice l a b -> x ∈ l.
Proof.
  unfold Py.slice. intros H. apply subseteq_take in H. now apply subseteq_drop in H.
Qed.

(** With a plan of 29 days and two commits or more, a window inside the
    list and dates the local clock can read, the call ends normally. *)
Lemma redistribute_commits_returns clk rand logs anchor plan :
  length plan = 29%nat ->
  0 <= start_commit anchor plan ->
  anchor < Z.of_nat (length logs) ->
  2 <= total_commits plan ->
  (forall c, c ∈ logs ->
     (exists t, time_of_day clk (author_date c) = Ok t) /\
     (exists sd, midnight clk (author_date c) = Ok sd)) ->
  exists logs', redistribute_commits clk rand logs anchor plan = (logs', Ok tt).
Proof.
  intros Hlen Hstart Hanchor Htotal Hread. unfold redistribute_commits.
  destruct (run clk rand logs anchor plan) as [s' r] eqn:Hrun.
  destruct (loop_returns clk
              (Py.slice logs (start_commit anchor plan) anchor) (3600 * 24, 0))
    as (mn & mx & Henv).
  { intros c Hc%elem_of_slice. apply (Hread c Hc). }
  change (envelope clk logs anchor plan = Ok (mn, mx)) in Henv.
  assert (Hle : mn <= mx).
  { pose proof Henv as Henv'. rewrite envelope_slice in Henv'
      by (unfold start_commit, total_commits in *; lia).
    apply loop_spec in Henv' as (_ & Hall & _).
    destruct (lookup_lt_is_Some_2
                (window logs (start_commit anchor plan) (total_commits plan - 1)) 0)
      as [c Hc].
    - unfold window. rewrite length_take, length_drop.
      unfold start_commit, total_commits in *. lia.
    - destruct (Hall c ltac:(eapply list_elem_of_lookup_2; exact Hc))
        as (t & _ & Ht). lia. }
  destruct (run_inv clk rand logs anchor plan mn mx s' r Hlen Hstart Henv Hrun)
    as [(_ & e & _ & [Hshort|(first & Hfirst & Hraise)])
       |(first & sd & p & _ & _ & _ & _ & _ & Hdone)].
  - unfold start_commit, total_commits in *. lia.
  - destruct (Hread first ltac:(eapply list_elem_of_lookup_2; exact Hfirst))
      as [_ [sd Hsd]]. congruence.
  - exists (st_logs s'). now rewrite Hdone by assumption.
Qed.

(** C3 fails as stated: on a clock that moves forward by an hour on the
    eleventh day of the window, a call that ends normally leaves record 25
    at 00:30:19 although the envelope is 23:30:10 to 23:30:58, and leaves
    no record on the calendar day ten days after the start, for which the
    plan has one commit. *)
Lemma redistribute_commits_off_calendar :
  let clk := Samples.spring_forward in
  let out :=
    redistribute_commits clk Samples.jumping Samples.late_evening 59 Samples.plan50 in
  length Samples.plan50 = 29%nat /\
  start_commit 59 Samples.plan50 = 10 /\
  snd out = Ok tt /\
  envelope clk Samples.late_evening 59 Samples.plan50 = Ok (84610, 84658) /\
  (time_of_day clk ∘ author_date) <$> fst out !! 25%nat = Some (Ok 1819) /\
  (midnight clk ∘ author_date) <$> Samples.late_evening !! 10%nat
  = Some (Ok 8636400) /\
  Samples.plan50 !! 10%nat = Some 1%nat /\
  length (filter
            (fun c => midnight clk (author_date c) = Ok (8636400 + 10 * 86400))
            (window (fst out) 10 50)) = 0%nat.
Proof. cbn zeta. repeat split; vm_compute; reflexivity. Qed.

Lemma redistribute_commits_dates_witness :
  let clk := fixed_offset 3600 in
  let logs := Samples.daily 60 in
  let logs' := fst (redistribute_commits clk Samples.jumping logs 59 Samples.plan50) in
  length Samples.plan50 = 29%nat /\
  0 <= start_commit 59 Samples.plan50 /\
  envelope clk logs 59 Samples.plan50 = Ok (42000, 70800) /\
  redistribute_commits clk Samples.jumping logs 59 Samples.plan50 = (logs', Ok tt) /\
  forall k c, 10 <= Z.of_nat k <= 59 -> logs' !! k = Some c ->
    author_date c = committer_date c /\
    exists t, time_of_day clk (author_date c) = Ok t /\ 42000 <= t <= 70800.
Proof.
  intros clk logs logs'.
  assert (H1 : length Samples.plan50 = 29%nat) by reflexivity.
  assert (H2 : 0 <= start_commit 59 Samples.plan50) by (vm_compute; discriminate).
  assert (H3 : envelope clk logs 59 Samples.plan50 = Ok (42000, 70800))
    by (vm_compute; reflexivity).
  assert (H4 : redistribute_commits clk Samples.jumping logs 59 Samples.plan50
               = (logs', Ok tt)) by (vm_compute; reflexivity).
  split; [exact H1|]. split; [exact H2|]. split; [exact H3|]. split; [exact H4|].
  destruct (redistribute_commits_dates clk Samples.jumping logs 59 Samples.plan50
              42000 70800 logs' H1 H2 H3 H4)
    as (first & sd & _ & _ & _ & Hall & _ & Hcalendar).
  destruct (Hcalendar 3600 (fixed_offset_steady 3600 _ _)) as [Hdays _].
  intros k c Hk Hc. split.
  - exact (proj1 (Hall k c Hk Hc)).
  - exact (proj2 (Hdays k c Hk Hc)).
Defined.



(** C6 fails as stated: with a random source whose values go down, the two
    commits of the first day come out in decreasing order of author date. *)
Lemma redistribute_commits_not_sorted :
  let out :=
    redistribute_commits (fixed_offset 0) Samples.falling (Samples.daily 60) 59
      Samples.plan50 in
  snd out = Ok tt /\
  ~ non_decreasing
      (window (fst out) (start_commit 59 Samples.plan50) (total_commits Samples.plan50)).
Proof.
  cbn zeta. split; [vm_compute; reflexivity|].
  intros H.
  specialize (H 0%nat 1%nat
                (Samples.at_time "dev@example.org" 9543400)
                (Samples.at_time "dev@example.org" 9543399)).
  assert (Hle : 9543400 <= 9543399).
  { apply H; [lia|vm_compute; reflexivity|vm_compute; reflexivity]. }
  lia.
Qed.

Lemma redistribute_commits_day_order_witness :
  let clk := fixed_offset 0 in
  let logs := Samples.daily 60 in
  let logs' := fst (redistribute_commits clk Samples.falling logs 59 Samples.plan50) in
  length Samples.plan50 = 29%nat /\
  0 <= start_commit 59 Samples.plan50 /\
  envelope clk logs 59 Samples.plan50 = Ok (38400, 67200) /\
  redistribute_commits clk Samples.falling logs 59 Samples.plan50 = (logs', Ok tt) /\
  forall cj ck, logs' !! 10%nat = Some cj -> logs' !! 11%nat = Some ck ->
    author_date cj - author_date ck <= 67200 - 38400 /\ 67200 - 38400 < 86400.
Proof.
  intros clk logs logs'.
  assert (H1 : length Samples.plan50 = 29%nat) by reflexivity.
  assert (H2 : 0 <= start_commit 59 Samples.plan50) by (vm_compute; discriminate).
  assert (H3 : envelope clk logs 59 Samples.plan50 = Ok (38400, 67200))
    by (vm_compute; reflexivity).
  assert (H4 : redistribute_commits clk Samples.falling logs 59 Samples.plan50
               = (logs', Ok tt)) by (vm_compute; reflexivity).
  split; [exact H1|]. split; [exact H2|]. split; [exact H3|]. split; [exact H4|].
  intros cj ck Hj Hk.
  assert (Hj' : start_commit 59 Samples.plan50 <= Z.of_nat 10)
    by (vm_compute; discriminate).
  assert (Hk' : Z.of_nat 11 <= 59) by (vm_compute; discriminate).
  exact (proj1 (redistribute_commits_day_order clk Samples.falling logs 59
                  Samples.plan50 38400 67200 logs' H1 H2 H3 H4 10%nat 11%nat cj ck
                  Hj' (le_S _ _ (le_n _)) Hk' Hj Hk)).
Defined.

(** C7, at a history whose newest commit was made at 23:00 and all others
    at 9:00: the envelope the call computes for the sixty commits it
    rewrites is (9:00, 9:00), while the envelope of these sixty commits,
    the anchor included, is (9:00, 23:00). *)
Theorem envelope_misses_anchor :
  let clk := fixed_offset 0 in
  let logs := Samples.late_anchor in
  start_commit 59 Samples.plan60 = 0 /\
  total_commits Samples.plan60 = 60 /\
  envelope clk logs 59 Samples.plan60 = Ok (32400, 32400) /\
  compute_commit_time_period clk
    (window logs (start_commit 59 Samples.plan60) (total_commits Samples.plan60))
  = Ok (32400, 82800) /\
  (time_of_day clk ∘ author_date) <$> logs !! 59%nat = Some (Ok 82800).
Proof. cbn zeta. repeat split; vm_compute; reflexivity. Qed.

(** C8, at a history of fifty commits and a plan of sixty: the window
    starts at -10, which Python reads from the end of the list, so that
    positions 40 to 49 are written first and then, with all the others,
    a second time. *)
Theorem fifty_commits_window_wraps :
  let clk := fixed_offset 0 in
  let logs := Samples.daily 50 in
  (50 <= length logs)%nat /\
  length Samples.plan60 = 29%nat /\
  50 <= total_commits Samples.plan60 <= 60 /\
  start_commit (Z.of_nat (length logs) - 1) Samples.plan60 = -10 /\
  snd (run clk Samples.jumping logs 49 Samples.plan60) = Ok tt /\
  st_written (fst (run clk Samples.jumping logs 49 Samples.plan60))
  = seq 40 10 ++ seq 0 50.
Proof.
  cbn zeta. split; [vm_compute; lia|]. split; [reflexivity|].
  split; [vm_compute; split; discriminate|].
  repeat split; vm_compute; reflexivity.
Qed.
End Runs.

(** * More about the streak search *)

Section StreakMore.
Import Streak.

(** [chronological] compares neighbours; dates are then ordered at any
    distance. *)
Lemma chronological_lookup logs :
  chronological logs = true ->
  forall j k cj ck, (j <= k)%nat -> logs !! j = Some cj -> logs !! k = Some ck ->
    author_date cj <= author_date ck.
Proof.
  induction logs as [|c rest IH]; intros Hsorted j k cj ck Hjk Hj Hk;
    [discriminate|].
  assert (Hrest : chronological rest = true).
  { destruct rest as [|c' rest']; [reflexivity|].
    cbn [chronological] in Hsorted. now apply andb_prop in Hsorted as [_ ?]. }
  destruct j as [|j], k as [|k]; try lia.
  - cbn in Hj, Hk. injection Hj as <-. injection Hk as <-. lia.
  - cbn in Hj. injection Hj as <-.
    change ((c :: rest) !! S k) with (rest !! k) in Hk.
    destruct rest as [|c' rest']; [discriminate|].
    cbn [chronological] in Hsorted. apply andb_prop in Hsorted as [Hle _].
    apply Z.leb_le in Hle.
    specialize (IH Hrest 0%nat k c' ck ltac:(lia) eq_refl Hk). lia.
  - apply (IH Hrest j k); [lia|exact Hj|exact Hk].
Qed.

(** A return takes 51 turns of the inner loop. *)
Lemma scan_found_turns logs author i j nb :
  scan logs author i j nb = Ok Found -> (51 <= nb + j)%nat.
Proof.
  revert nb. induction j as [|j IH]; intros nb; [discriminate|].
  cbn [scan]. destruct author as [a|].
  2:{ intros H. apply IH in H. lia. }
  destruct (logs !! S j) as [cj|]; [|discriminate].
  destruct (author_matches (Some a) cj).
  2:{ intros H. apply IH in H. lia. }
  destruct (logs !! i) as [ci|]; [|discriminate].
  destruct (month <? _); [discriminate|].
  destruct (50 <=? nb)%nat eqn:Hn.
  - apply Nat.leb_le in Hn. lia.
  - intros H. apply IH in H. lia.
Qed.

Lemma search_from_52 logs author i r :
  search logs author i = Ok r -> r = -1 \/ 52 <= r <= Z.of_nat i.
Proof.
  induction i as [|i IH]; [intros [= <-]; now left|].
  cbn [search]. destruct (S i <=? 50)%nat; [intros [= <-]; now left|].
  destruct (scan logs author (S i) (S i - 1) 0) as [[]|] eqn:E; [| |discriminate].
  - intros [= <-]. apply scan_found_turns in E. right. lia.
  - intros H. apply IH in H. lia.
Qed.

(** When no commit has the author, the inner loop never counts. *)
Lemma scan_unknown_author logs a i j nb :
  (forall c, c ∈ logs -> author_email c <> a) ->
  (j < length logs)%nat ->
  scan logs (Some a) i j nb = Ok NotFound.
Proof.
  intros Hnone. revert nb. induction j as [|j IH]; intros nb Hj; [reflexivity|].
  cbn [scan]. destruct (lookup_lt_is_Some_2 logs (S j) Hj) as [cj Hcj]. rewrite Hcj.
  unfold author_matches.
  destruct (String.eqb_spec (author_email cj) a) as [Heq|_].
  - exfalso. apply (Hnone cj); [eapply list_elem_of_lookup_2; exact Hcj|exact Heq].
  - apply IH. lia.
Qed.

Lemma search_unknown_author logs a i :
  (forall c, c ∈ logs -> author_email c <> a) ->
  (i < length logs \/ i = 0)%nat ->
  search logs (Some a) i = Ok (-1).
Proof.
  intros Hnone. induction i as [|i IH]; intros Hi; [reflexivity|].
  cbn [search]. destruct (S i <=? 50)%nat; [reflexivity|].
  rewrite scan_unknown_author by (assumption || lia). apply IH. lia.
Qed.
End StreakMore.

Section StreakSorted.
Import Streak.
Variable logs : list commit.
Variable a : string.
Hypothesis Hsorted : chronological logs = true.

(** The qualifying commits at positions [1 .. j], for the end commit [ci]. *)
Lemma scanned_step ci j cj :
  logs !! S j = Some cj ->
  filter (fun c => qualifies (Some a) ci c = true) (drop 1 (take (S (S j)) logs))
  = filter (fun c => qualifies (Some a) ci c = true) (drop 1 (take (S j) logs))
    ++ (if qualifies (Some a) ci cj then [cj] else []).
Proof.
  intros Hj. rewrite (take_S_r _ _ _ Hj).
  assert (Hlen : (S j < length logs)%nat) by (apply lookup_lt_is_Some; eauto).
  rewrite drop_app_le by (rewrite length_take; lia).
  rewrite filter_app. f_equal.
  destruct (qualifies (Some a) ci cj) eqn:Hq.
  - now rewrite filter_cons_True, filter_nil by exact Hq.
  - rewrite filter_cons_False, filter_nil by congruence. reflexivity.
Qed.

(** Once a commit of the author is too old, so is everything before it. *)
Lemma scanned_too_old ci j cj :
  logs !! j = Some cj ->
  month < author_date ci - author_date cj ->
  filter (fun c => qualifies (Some a) ci c = true) (drop 1 (take (S j) logs)) = [].
Proof.
  intros Hj Hold.
  apply length_zero_iff_nil, length_filter_none.
  intros c Hc. apply list_elem_of_lookup in Hc as [k Hk].
  rewrite lookup_drop in Hk.
  destruct (le_lt_dec (S j) (1 + k)) as [Hge|Hlt].
  { rewrite lookup_take_ge in Hk by exact Hge. discriminate. }
  rewrite lookup_take_lt in Hk by exact Hlt.
  pose proof (chronological_lookup logs Hsorted (1 + k) j c cj ltac:(lia) Hk Hj).
  unfold qualifies. intros [_ Hle%Z.leb_le]%andb_prop. lia.
Qed.

(** On a chronological history the inner loop returns exactly when the
    counter and the qualifying commits at positions [1 .. j] reach 51. *)
Lemma scan_chronological i ci j nb :
  logs !! i = Some ci -> (j < length logs)%nat -> (nb <= 50)%nat ->
  scan logs (Some a) i j nb
  = Ok (if (51 <=? nb + length (filter (fun c => qualifies (Some a) ci c = true)
                                  (drop 1 (take (S j) logs))))%nat
        then Found else NotFound).
Proof.
  intros Hi. revert nb. induction j as [|j IH]; intros nb Hj Hnb.
  - cbn [scan]. rewrite drop_ge by (rewrite length_take; lia).
    rewrite filter_nil. cbn [length].
    destruct (Nat.leb_spec 51 (nb + 0)); [lia|reflexivity].
  - cbn [scan]. rewrite Hi.
    destruct (lookup_lt_is_Some_2 logs (S j) Hj) as [cj Hcj]. rewrite Hcj.
    unfold author_matches.
    destruct (String.eqb (author_email cj) a) eqn:Ha.
    + destruct (Z.ltb_spec month (author_date ci - author_date cj)) as [Hold|Hin].
      * rewrite (scanned_too_old ci (S j) cj Hcj Hold). cbn [length].
        destruct (Nat.leb_spec 51 (nb + 0)); [lia|reflexivity].
      * rewrite (scanned_step ci j cj Hcj), length_app.
        assert (Hq : qualifies (Some a) ci cj = true).
        { unfold qualifies, accepts. rewrite Ha. now apply Z.leb_le. }
        rewrite Hq. cbn [length].
        destruct (Nat.leb_spec 50 nb) as [Hfull|Hmore].
        -- destruct (Nat.leb_spec 51 (nb + (length
                (filter (fun c => qualifies (Some a) ci c = true)
                   (drop 1 (take (S j) logs))) + 1))); [reflexivity|lia].
        -- rewrite IH by lia. f_equal.
           replace (S nb + length (filter (fun c => qualifies (Some a) ci c = true)
                                     (drop 1 (take (S j) logs))))%nat
             with (nb + (length (filter (fun c => qualifies (Some a) ci c = true)
                                   (drop 1 (take (S j) logs))) + 1))%nat by lia.
           reflexivity.
    + rewrite (scanned_step ci j cj Hcj), length_app.
      assert (Hq : qualifies (Some a) ci cj = false).
      { unfold qualifies, accepts. now rewrite Ha. }
      rewrite Hq, IH by lia. cbn [length]. now rewrite Nat.add_0_r.
Qed.

Lemma scan_chronological_scanned i :
  (0 < i < length logs)%nat ->
  scan logs (Some a) i (i - 1) 0
  = Ok (if (51 <=? streak_scanned logs (Some a) i)%nat then Found else NotFound).
Proof.
  intros Hi. destruct (lookup_lt_is_Some_2 logs i) as [ci Hci]; [lia|].
  rewrite (scan_chronological i ci) by (assumption || lia).
  unfold streak_scanned. rewrite Hci.
  replace (S (i - 1)) with i by lia. reflexivity.
Qed.

(** The outer loop returns the first index, from [i0] down, whose scanned
    streak reaches 51. *)
Lemma search_chronological i0 :
  (i0 < length logs \/ i0 = 0)%nat ->
  exists r, search logs (Some a) i0 = Ok r /\
    ((r = -1 /\
      forall i, (51 <= i <= i0)%nat -> (streak_scanned logs (Some a) i < 51)%nat) \/
     (exists i, r = Z.of_nat i /\ (51 <= i <= i0)%nat /\
        (51 <= streak_scanned logs (Some a) i)%nat /\
        forall i', (i < i' <= i0)%nat -> (streak_scanned logs (Some a) i' < 51)%nat)).
Proof.
  induction i0 as [|i0 IH]; intros Hi0.
  - exists (-1). split; [reflexivity|]. left. split; [reflexivity|]. intros i Hi. lia.
  - cbn [search]. destruct (Nat.leb_spec (S i0) 50) as [Hsmall|Hbig].
    { exists (-1). split; [reflexivity|]. left. split; [reflexivity|]. intros i Hi. lia. }
    rewrite scan_chronological_scanned by lia.
    destruct (Nat.leb_spec 51 (streak_scanned logs (Some a) (S i0))) as [Hyes|Hno].
    + exists (Z.of_nat (S i0)). split; [reflexivity|]. right.
      exists (S i0). split; [reflexivity|]. split; [lia|]. split; [exact Hyes|].
      intros i' Hi'. lia.
    + destruct IH as (r & Hr & Hspec); [lia|].
      exists r. split; [exact Hr|].
      destruct Hspec as [(-> & Hnone)|(i & -> & Hi & Hyes & Hlater)].
      * left. split; [reflexivity|]. intros i Hi.
        destruct (Nat.eq_dec i (S i0)) as [->|Hne]; [exact Hno|apply Hnone; lia].
      * right. exists i. split; [reflexivity|]. split; [lia|]. split; [exact Hyes|].
        intros i' Hi'.
        destruct (Nat.eq_dec i' (S i0)) as [->|Hne]; [exact Hno|apply Hlater; lia].
Qed.
End StreakSorted.

Section StreakExtras.
Import Streak.

(** X1: for a given author, an index that [find_50commits_month] returns is
    that of an existing commit, at position 51 or later, with at least 51
    commits of the author before it that were authored no more than 29
    days earlier. *)
Theorem find_50commits_month_streak logs a r :
  find_50commits_month logs (Some a) = Ok r -> r <> -1 ->
  exists k, r = Z.of_nat k /\ (51 <= k < length logs)%nat /\
    (51 <= streak_before logs (Some a) k)%nat.
Proof.
  intros H1 H2. destruct (search_found _ _ _ _ H1 H2) as (k & -> & Hk & Hs).
  exists k. split; [reflexivity|]. split; [lia|exact Hs].
Qed.

Lemma find_50commits_month_streak_witness :
  find_50commits_month Samples.sixty_in_a_minute (Some "dev@example.org"%string)
    = Ok 59 /\
  59 <> -1 /\
  exists k, 59 = Z.of_nat k /\ (51 <= k < length Samples.sixty_in_a_minute)%nat /\
    (51 <= streak_before Samples.sixty_in_a_minute
             (Some "dev@example.org"%string) k)%nat.
Proof.
  assert (H1 : find_50commits_month Samples.sixty_in_a_minute
                 (Some "dev@example.org"%string) = Ok 59) by (vm_compute; reflexivity).
  assert (H2 : 59 <> -1) by discriminate.
  split; [exact H1|]. split; [exact H2|].
  exact (find_50commits_month_streak Samples.sixty_in_a_minute
           "dev@example.org"%string 59 H1 H2).
Defined.

(** X2: when no commit of the logs has the author asked for,
    [find_50commits_month] returns -1. *)
Theorem find_50commits_month_unknown_author logs a :
  (forall c, c ∈ logs -> author_email c <> a) ->
  find_50commits_month logs (Some a) = Ok (-1).
Proof.
  intros Hnone. apply search_unknown_author; [exact Hnone|lia].
Qed.

Lemma find_50commits_month_unknown_author_witness :
  (forall c, c ∈ Samples.sixty_in_a_minute ->
     author_email c <> "nobody@example.org"%string) /\
  find_50commits_month Samples.sixty_in_a_minute (Some "nobody@example.org"%string)
    = Ok (-1).
Proof.
  assert (H : forall c, c ∈ Samples.sixty_in_a_minute ->
                author_email c <> "nobody@example.org"%string).
  { intros c Hc. apply list_elem_of_In, in_map_iff in Hc as (k & <- & _).
    discriminate. }
  split; [exact H|].
  exact (find_50commits_month_unknown_author Samples.sixty_in_a_minute
           "nobody@example.org"%string H).
Defined.

(** X3: an index that [find_50commits_month] returns is at least 52, since
    the inner loop needs 51 turns below it that stop at position 1; on at
    most 52 commits the result is -1. *)
Theorem find_50commits_month_from_52 logs author :
  (forall r, find_50commits_month logs author = Ok r ->
     r = -1 \/ 52 <= r <= Z.of_nat (length logs) - 1) /\
  ((length logs <= 52)%nat -> find_50commits_month logs author = Ok (-1)).
Proof.
  assert (Hrange : forall r, find_50commits_month logs author = Ok r ->
            r = -1 \/ 52 <= r <= Z.of_nat (length logs) - 1).
  { intros r Hr. apply search_from_52 in Hr. lia. }
  split; [exact Hrange|].
  intros Hlen.
  destruct (search_range logs author (length logs - 1)) as (r & Hr & _); [lia|].
  fold (find_50commits_month logs author) in Hr.
  rewrite Hr. f_equal. destruct (Hrange r Hr); lia.
Qed.

Lemma find_50commits_month_from_52_witness :
  let logs := take 52 Samples.sixty_in_a_minute in
  (length logs <= 52)%nat /\
  find_50commits_month logs (Some "dev@example.org"%string) = Ok (-1).
Proof.
  intros logs.
  assert (H : (length logs <= 52)%nat) by (vm_compute; lia).
  split; [exact H|].
  exact (proj2 (find_50commits_month_from_52 logs (Some "dev@example.org"%string)) H).
Defined.

(** X4: on a chronological history and for a given author,
    [find_50commits_month] returns the greatest index [i >= 51] for which
    at least 51 commits at positions [1 .. i - 1] are by the author and no
    more than 29 days older than commit [i]; it returns -1 when there is no
    such index. *)
Theorem find_50commits_month_latest logs a :
  chronological logs = true ->
  exists r, find_50commits_month logs (Some a) = Ok r /\
    ((r = -1 /\
      forall i, (51 <= i < length logs)%nat ->
        (streak_scanned logs (Some a) i < 51)%nat) \/
     (exists i, r = Z.of_nat i /\ (51 <= i < length logs)%nat /\
        (51 <= streak_scanned logs (Some a) i)%nat /\
        forall i', (i < i' < length logs)%nat ->
          (streak_scanned logs (Some a) i' < 51)%nat)).
Proof.
  intros Hsorted.
  destruct (search_chronological logs a Hsorted (length logs - 1))
    as (r & Hr & Hspec); [lia|].
  exists r. split; [exact Hr|].
  destruct Hspec as [(-> & Hnone)|(i & -> & Hi & Hyes & Hlater)].
  - left. split; [reflexivity|]. intros i Hi. apply Hnone. lia.
  - right. exists i. split; [reflexivity|]. split; [lia|]. split; [exact Hyes|].
    intros i' Hi'. apply Hlater. lia.
Qed.

Lemma find_50commits_month_latest_witness :
  chronological Samples.sixty_in_a_minute = true /\
  exists r, find_50commits_month Samples.sixty_in_a_minute
              (Some "dev@example.org"%string) = Ok r /\
    ((r = -1 /\
      forall i, (51 <= i < length Samples.sixty_in_a_minute)%nat ->
        (streak_scanned Samples.sixty_in_a_minute
           (Some "dev@example.org"%string) i < 51)%nat) \/
     (exists i, r = Z.of_nat i /\ (51 <= i < length Samples.sixty_in_a_minute)%nat /\
        (51 <= streak_scanned Samples.sixty_in_a_minute
                 (Some "dev@example.org"%string) i)%nat /\
        forall i', (i < i' < length Samples.sixty_in_a_minute)%nat ->
          (streak_scanned Samples.sixty_in_a_minute
             (Some "dev@example.org"%string) i' < 51)%nat)).
Proof.
  assert (H : chronological Samples.sixty_in_a_minute = true) by reflexivity.
  split; [exact H|].
  exact (find_50commits_month_latest Samples.sixty_in_a_minute
           "dev@example.org"%string H).
Defined.

(** X5: [find_contributor_50commits_month] never raises; it returns the
    first contributor of the list for whom [find_50commits_month] finds an
    index, with that index, and [(None, -1)] when it finds none for any
    contributor. *)
Theorem find_contributor_50commits_month_first contributors logs :
  exists who n, find_contributor_50commits_month contributors logs = Ok (who, n) /\
    match who with
    | None =>
      n = -1 /\
      forall c, c ∈ contributors -> find_50commits_month logs (Some c) = Ok (-1)
    | Some c =>
      n <> -1 /\ find_50commits_month logs (Some c) = Ok n /\
      exists before after, contributors = before ++ c :: after /\
        forall c', c' ∈ before -> find_50commits_month logs (Some c') = Ok (-1)
    end.
Proof.
  induction contributors as [|c rest IH].
  - exists None, (-1). split; [reflexivity|]. split; [reflexivity|].
    intros c Hc. inversion Hc.
  - cbn [find_contributor_50commits_month].
    destruct (search_range logs (Some c) (length logs - 1)) as (n & Hn & _); [lia|].
    fold (find_50commits_month logs (Some c)) in Hn. rewrite Hn.
    destruct (Z.eqb_spec n (-1)) as [->|Hne]; cbn [negb].
    + destruct IH as (who & m & -> & Hspec). exists who, m. split; [reflexivity|].
      destruct who as [c1|].
      * destruct Hspec as (Hm & Hfind & before & after & -> & Hbefore).
        split; [exact Hm|]. split; [exact Hfind|].
        exists (c :: before), after. split; [reflexivity|].
        intros c' [->|Hc']%elem_of_cons; [exact Hn|now apply Hbefore].
      * destruct Hspec as (-> & Hall). split; [reflexivity|].
        intros c' [->|Hc']%elem_of_cons; [exact Hn|now apply Hall].
    + exists (Some c), n. split; [reflexivity|]. split; [exact Hne|].
      split; [exact Hn|]. exists [], rest. split; [reflexivity|].
      intros c' Hc'. inversion Hc'.
Qed.
Lemma find_contributor_50commits_month_first_witness :
  find_contributor_50commits_month
    ["nobody@example.org"; "dev@example.org"]%string Samples.sixty_in_a_minute
  = Ok (Some "dev@example.org"%string, 59) /\
  exists who n,
    find_contributor_50commits_month
      ["nobody@example.org"; "dev@example.org"]%string Samples.sixty_in_a_minute
    = Ok (who, n) /\
    match who with
    | None =>
      n = -1 /\
      forall c, c ∈ ["nobody@example.org"; "dev@example.org"]%string ->
        find_50commits_month Samples.sixty_in_a_minute (Some c) = Ok (-1)
    | Some c =>
      n <> -1 /\ find_50commits_month Samples.sixty_in_a_minute (Some c) = Ok n /\
      exists before after,
        ["nobody@example.org"; "dev@example.org"]%string = before ++ c :: after /\
        forall c', c' ∈ before ->
          find_50commits_month Samples.sixty_in_a_minute (Some c') = Ok (-1)
    end.
Proof.
  split; [vm_compute; reflexivity|].
  exact (find_contributor_50commits_month_first
           ["nobody@example.org"; "dev@example.org"]%string
           Samples.sixty_in_a_minute).
Defined.
End StreakExtras.

(** * The offset *)

Section OffsetExtras.
Import Streak Offset.

Lemma length_filter_le {A} (P Q : A -> Prop)
    `{!forall x, Decision (P x), !forall x, Decision (Q x)} (l : list A) :
  (forall x, x ∈ l -> P x -> Q x) ->
  (length (filter P l) <= length (filter Q l))%nat.
Proof.
  induction l as [|x l IH]; intros Hin; [reflexivity|].
  assert (Hl : (length (filter P l) <= length (filter Q l))%nat)
    by (apply IH; intros y Hy; apply Hin; now right).
  specialize (Hin x ltac:(left)).
  destruct (decide (P x)) as [Hp|Hp].
  - rewrite (filter_cons_True P), (filter_cons_True Q) by tauto. cbn [length]. lia.
  - rewrite (filter_cons_False P) by exact Hp.
    destruct (decide (Q x)) as [Hq|Hq].
    + rewrite (filter_cons_True Q) by exact Hq. cbn [length]. lia.
    + rewrite (filter_cons_False Q) by exact Hq. exact Hl.
Qed.

Lemma length_filter_part {A} (P : A -> Prop) `{!forall x, Decision (P x)}
    (l : list A) a n :
  (length (filter P (take n (drop a l))) <= length (filter P l))%nat.
Proof.
  rewrite <- (take_drop a l) at 2.
  rewrite <- (take_drop n (drop a l)) at 2.
  rewrite !filter_app, !length_app. lia.
Qed.

(** The commits of a streak, moved by the offset of its last commit. *)
Lemma streak_shifted now logs a k :
  (51 <= streak_before logs (Some a) k)%nat ->
  exists ck, logs !! k = Some ck /\
    compute_offset now logs (Z.of_nat k) = Ok (now - author_date ck) /\
    (51 <= length (filter
                     (fun c => author_email c = a /\
                               (now - month <= author_date c + (now - author_date ck))%Z)
                     logs))%nat /\
    (chronological logs = true ->
     (51 <= length (filter
                      (fun c => author_email c = a /\
                                (now - month <= author_date c + (now - author_date ck)
                                 <= now)%Z)
                      logs))%nat).
Proof.
  unfold streak_before. destruct (logs !! k) as [ck|] eqn:Hk; [|cbn; lia].
  intros Hstreak. exists ck. split; [reflexivity|]. split.
  { unfold compute_offset. rewrite get_inside by lia. now rewrite Nat2Z.id, Hk. }
  split.
  - etransitivity; [exact Hstreak|].
    etransitivity; [|apply (length_filter_part _ logs 0 k)].
    rewrite drop_0. apply length_filter_le.
    intros c _ [Ha Hle%Z.leb_le]%andb_prop.
    split; [now apply String.eqb_eq in Ha|lia].
  - intros Hsorted. etransitivity; [exact Hstreak|].
    etransitivity; [|apply (length_filter_part _ logs 0 k)].
    rewrite drop_0. apply length_filter_le.
    intros c [j Hj]%list_elem_of_lookup [Ha Hle%Z.leb_le]%andb_prop.
    split; [now apply String.eqb_eq in Ha|].
    destruct (le_lt_dec k j) as [Hge|Hlt].
    { rewrite lookup_take_ge in Hj by exact Hge. discriminate. }
    rewrite lookup_take_lt in Hj by exact Hlt.
    pose proof (chronological_lookup logs Hsorted j k c ck ltac:(lia) Hj Hk). lia.
Qed.

(** X7: when [find_50commits_month] returns an index for an author, the
    offset computed for that index moves at least 51 commits of the author
    to dates no earlier than 29 days before the current time, and on a
    chronological history to dates between then and the current time. *)
Theorem streak_moved_to_last_month now logs a r :
  find_50commits_month logs (Some a) = Ok r -> r <> -1 ->
  exists offset, compute_offset now logs r = Ok offset /\
    (51 <= length (filter
                     (fun c => author_email c = a /\
                               (now - month <= author_date c + offset)%Z)
                     logs))%nat /\
    (chronological logs = true ->
     (51 <= length (filter
                      (fun c => author_email c = a /\
                                (now - month <= author_date c + offset <= now)%Z)
                      logs))%nat).
Proof.
  intros Hfind Hr.
  destruct (search_found _ _ _ _ Hfind Hr) as (k & -> & _ & Hstreak).
  destruct (streak_shifted now logs a k Hstreak) as (ck & _ & Hoff & H1 & H2).
  exists (now - author_date ck). split; [exact Hoff|]. split; [exact H1|exact H2].
Qed.

Lemma streak_moved_to_last_month_witness :
  find_50commits_month Samples.sixty_in_a_minute (Some "dev@example.org"%string)
    = Ok 59 /\
  59 <> -1 /\
  exists offset, compute_offset 9000000 Samples.sixty_in_a_minute 59 = Ok offset /\
    (51 <= length (filter
                     (fun c => author_email c = "dev@example.org"%string /\
                               (9000000 - month <= author_date c + offset)%Z)
                     Samples.sixty_in_a_minute))%nat.
Proof.
  assert (H1 : find_50commits_month Samples.sixty_in_a_minute
                 (Some "dev@example.org"%string) = Ok 59) by (vm_compute; reflexivity).
  assert (H2 : 59 <> -1) by discriminate.
  split; [exact H1|]. split; [exact H2|].
  destruct (streak_moved_to_last_month 9000000 Samples.sixty_in_a_minute
              "dev@example.org"%string 59 H1 H2) as (offset & Hoff & Hcount & _).
  exists offset. split; [exact Hoff|exact Hcount].
Defined.
End OffsetExtras.
(** * More about the time envelope *)

Section EnvelopeExtras.
Import LocalTime Envelope.

Lemma loop_app clk logs1 logs2 acc :
  loop clk (logs1 ++ logs2) acc
  = match loop clk logs1 acc with
    | Ok acc' => loop clk logs2 acc'
    | Raise e => Raise e
    end.
Proof.
  revert acc. induction logs1 as [|c logs1 IH]; intros acc; [reflexivity|].
  cbn [app loop]. destruct (step clk acc c); [apply IH|reflexivity].
Qed.

(** The loop entered with bounds [(a, b)] instead of [(86400, 0)]. *)
Lemma loop_from clk logs a b mn mx :
  a <= 86400 -> 0 <= b ->
  compute_commit_time_period clk logs = Ok (mn, mx) ->
  loop clk logs (a, b) = Ok (Z.min a mn, Z.max b mx).
Proof.
  unfold compute_commit_time_period. change (3600 * 24) with 86400.
  revert a b mn mx. induction logs as [|c logs IH]; intros a b mn mx Ha Hb.
  - intros [= <- <-]. cbn. do 2 f_equal; lia.
  - cbn [loop step].
    destruct (time_of_day clk (author_date c)) as [t|e] eqn:Htod; [|discriminate].
    pose proof (time_of_day_range clk _ _ Htod) as Ht.
    destruct (loop clk logs (86400, 0)) as [[m M]|e] eqn:E.
    2:{ intros H. exfalso.
        destruct (Z.ltb_spec 0 t), (Z.ltb_spec t 86400); try lia.
        - destruct (loop clk logs (t, t)) as [[m' M']|e'] eqn:E'; [|discriminate].
          assert (Hex : exists mn' mx', loop clk logs (86400, 0) = Ok (mn', mx')).
          { apply loop_returns. intros c' Hc'.
            apply loop_spec in E' as (_ & Hall & _).
            destruct (Hall c' Hc') as (t' & Ht' & _). eauto. }
          destruct Hex as (? & ? & Hex). congruence.
        - destruct (loop clk logs (t, 0)) as [[m' M']|e'] eqn:E'; [|discriminate].
          assert (Hex : exists mn' mx', loop clk logs (86400, 0) = Ok (mn', mx')).
          { apply loop_returns. intros c' Hc'.
            apply loop_spec in E' as (_ & Hall & _).
            destruct (Hall c' Hc') as (t' & Ht' & _). eauto. }
          destruct Hex as (? & ? & Hex). congruence. }
    intros H.
    rewrite (IH _ _ m M) in H by
      (try reflexivity; destruct (Z.ltb_spec t 86400), (Z.ltb_spec 0 t); lia).
    rewrite (IH _ _ m M) by
      (try reflexivity; destruct (Z.ltb_spec t a), (Z.ltb_spec b t); lia).
    injection H as <- <-.
    destruct (Z.ltb_spec t 86400), (Z.ltb_spec 0 t), (Z.ltb_spec t a),
      (Z.ltb_spec b t); do 2 f_equal; lia.
Qed.

(** X8: the envelope of two slices put end to end is the smaller of the
    minima and the larger of the maxima of the two. *)
Theorem compute_commit_time_period_app clk logs1 logs2 mn1 mx1 mn2 mx2 :
  compute_commit_time_period clk logs1 = Ok (mn1, mx1) ->
  compute_commit_time_period clk logs2 = Ok (mn2, mx2) ->
  compute_commit_time_period clk (logs1 ++ logs2)
  = Ok (Z.min mn1 mn2, Z.max mx1 mx2).
Proof.
  intros H1 H2.
  pose proof (compute_commit_time_period_bounds clk _ _ _ H1) as Hb.
  unfold compute_commit_time_period in *. rewrite loop_app, H1.
  apply loop_from; [lia|lia|exact H2].
Qed.

Lemma compute_commit_time_period_app_witness :
  let clk := fixed_offset 0 in
  compute_commit_time_period clk (Samples.daily 3) = Ok (32400, 33600) /\
  compute_commit_time_period clk Samples.late_anchor = Ok (32400, 82800) /\
  compute_commit_time_period clk (Samples.daily 3 ++ Samples.late_anchor)
    = Ok (Z.min 32400 32400, Z.max 33600 82800).
Proof.
  intros clk.
  assert (H1 : compute_commit_time_period clk (Samples.daily 3) = Ok (32400, 33600))
    by reflexivity.
  assert (H2 : compute_commit_time_period clk Samples.late_anchor
               = Ok (32400, 82800)) by (vm_compute; reflexivity).
  split; [exact H1|]. split; [exact H2|].
  exact (compute_commit_time_period_app clk (Samples.daily 3) Samples.late_anchor
           32400 33600 32400 82800 H1 H2).
Defined.

(** X9: the bounds [compute_commit_time_period] returns are times of day or
    the initial ones, and they form an empty range, [max < min], exactly
    when the slice is empty: only then does [random.randint(min, max)]
    raise [ValueError]. *)
Theorem compute_commit_time_period_empty clk logs mn mx :
  compute_commit_time_period clk logs = Ok (mn, mx) ->
  (0 <= mn <= 86400 /\ 0 <= mx < 86400) /\
  (mx < mn <-> logs = []) /\
  (forall r, Py.randint r mn mx = Raise ValueError <-> logs = []).
Proof.
  intros H. pose proof (compute_commit_time_period_bounds clk _ _ _ H) as Hb.
  assert (Hempty : mx < mn <-> logs = []).
  { destruct logs as [|c rest].
    - injection H as <- <-. split; [reflexivity|lia].
    - apply loop_spec in H as (_ & Hall & _).
      destruct (Hall c ltac:(left)) as (t & _ & Ht).
      split; [lia|discriminate]. }
  split; [exact Hb|]. split; [exact Hempty|].
  intros r. unfold Py.randint. rewrite <- Hempty.
  destruct (Z.ltb_spec mx mn); split; try tauto; try discriminate; lia.
Qed.

Lemma compute_commit_time_period_empty_witness :
  compute_commit_time_period (fixed_offset 0) (Samples.daily 3)
    = Ok (32400, 33600) /\
  (33600 < 32400 <-> Samples.daily 3 = []).
Proof.
  assert (H : compute_commit_time_period (fixed_offset 0) (Samples.daily 3)
              = Ok (32400, 33600)) by reflexivity.
  split; [exact H|].
  exact (proj1 (proj2 (compute_commit_time_period_empty (fixed_offset 0)
                         (Samples.daily 3) 32400 33600 H))).
Defined.
End EnvelopeExtras.

(** * More about the redistribution *)

Section KeptFacts.
Import Redistribute.
Context {B : Type}.
Variable g : commit -> B.
Hypothesis g_set_dates : forall c ts, g (set_dates c ts) = g c.

(** Whatever [set_dates] keeps of a record, a write keeps of the list. *)
Lemma alter_set_dates_kept ts p (l : list commit) :
  g <$> alter (fun c => set_dates c ts) p l = g <$> l.
Proof.
  apply list_eq. intros k. rewrite !list_lookup_fmap.
  destruct (decide (p = k)) as [->|Hne].
  - rewrite list_lookup_alter_eq. destruct (l !! k); cbn; [|reflexivity].
    now rewrite g_set_dates.
  - now rewrite list_lookup_alter_ne by exact Hne.
Qed.

Lemma day_loop_kept rand mn mx day n : forall s s' r,
  day_loop rand mn mx day n s = (s', r) -> g <$> st_logs s' = g <$> st_logs s.
Proof.
  induction n as [|n IH]; intros s s' r; [now intros [= <-]|].
  cbn [day_loop]. destruct (Py.randint _ _ _); [|now intros [= <-]].
  destruct (Py.index _ _); [|now intros [= <-]].
  intros H. apply IH in H. cbn [st_logs] in H.
  now rewrite H, alter_set_dates_kept.
Qed.

Lemma days_loop_kept rand plan mn mx sd days : forall s s' r,
  days_loop rand plan mn mx sd days s = (s', r) ->
  g <$> st_logs s' = g <$> st_logs s.
Proof.
  induction days as [|d days IH]; intros s s' r; [now intros [= <-]|].
  cbn [days_loop]. destruct (plan !! d); [|now intros [= <-]].
  destruct (day_loop _ _ _ _ _ _) as [s1 [[]|e]] eqn:E.
  - intros H. apply IH in H. apply day_loop_kept in E. congruence.
  - intros [= <- <-]. now apply day_loop_kept in E.
Qed.

Lemma run_kept clk rand logs anchor plan s' r :
  run clk rand logs anchor plan = (s', r) -> g <$> st_logs s' = g <$> logs.
Proof.
  unfold run. destruct (negb _); [now intros [= <-]|].
  destruct (envelope _ _ _ _) as [[mn mx]|e]; [|now intros [= <-]].
  destruct (Py.get _ _) as [first|e]; [|now intros [= <-]].
  destruct (LocalTime.midnight _ _); [|now intros [= <-]].
  intros H. now apply days_loop_kept in H.
Qed.
End KeptFacts.

Section RedistributeExtras.
Import LocalTime Envelope Redistribute.

(** X10: whatever its arguments and however it ends, [redistribute_commits]
    leaves the logs with the same number of records, in the same order of
    authors, and with the other keys of every record as they were: only
    dates are ever written. *)
Theorem redistribute_commits_keeps clk rand logs anchor plan logs' r :
  redistribute_commits clk rand logs anchor plan = (logs', r) ->
  length logs' = length logs /\
  author_email <$> logs' = author_email <$> logs /\
  other_keys <$> logs' = other_keys <$> logs.
Proof.
  unfold redistribute_commits.
  destruct (run clk rand logs anchor plan) as [s' r'] eqn:Hrun.
  intros [= <- <-].
  pose proof (run_kept author_email (fun _ _ => eq_refl) _ _ _ _ _ _ _ Hrun) as H1.
  pose proof (run_kept other_keys (fun _ _ => eq_refl) _ _ _ _ _ _ _ Hrun) as H2.
  split; [|split; assumption].
  rewrite <- (length_fmap author_email (st_logs s')), H1. apply length_fmap.
Qed.

Lemma redistribute_commits_keeps_witness :
  let out :=
    redistribute_commits (fixed_offset 0) Samples.jumping (Samples.daily 50) 49
      Samples.plan60 in
  redistribute_commits (fixed_offset 0) Samples.jumping (Samples.daily 50) 49
    Samples.plan60 = (fst out, snd out) /\
  length (fst out) = length (Samples.daily 50) /\
  author_email <$> fst out = author_email <$> Samples.daily 50.
Proof.
  intros out.
  assert (H : redistribute_commits (fixed_offset 0) Samples.jumping
                (Samples.daily 50) 49 Samples.plan60 = (fst out, snd out))
    by (vm_compute; reflexivity).
  split; [exact H|].
  destruct (redistribute_commits_keeps (fixed_offset 0) Samples.jumping
              (Samples.daily 50) 49 Samples.plan60 (fst out) (snd out) H)
    as (Hlen & Hauthors & _).
  split; [exact Hlen|exact Hauthors].
Defined.
End RedistributeExtras.

Section StopFacts.
Import Redistribute.
Variable rand : nat -> Z.
Variables min_time max_time : Z.
Variable len a : nat.
Hypothesis Hrange : min_time <= max_time.

(** With a non-empty range of times the inner loop can only stop early on
    an index past the end of the list. *)
Lemma day_loop_stops day n : forall s s' r,
  st_num_commit s = Z.of_nat (a + st_draws s) -> length (st_logs s) = len ->
  day_loop rand min_time max_time day n s = (s', r) ->
  st_num_commit s' = Z.of_nat (a + st_draws s') /\ length (st_logs s') = len /\
  (r = Ok tt \/ (r = Raise IndexError /\ (len <= a + st_draws s')%nat)).
Proof.
  induction n as [|n IH]; intros s s' r Hnum Hlen.
  - intros [= <- <-]. auto.
  - cbn [day_loop]. unfold Py.randint.
    destruct (Z.ltb_spec max_time min_time); [lia|].
    rewrite Hnum, Hlen.
    destruct (le_lt_dec len (a + st_draws s)) as [Hge|Hlt].
    + rewrite index_beyond by exact Hge. intros [= <- <-]. auto.
    + rewrite index_inside by exact Hlt. intros Hrun.
      apply IH in Hrun; [exact Hrun| |]; cbn [st_num_commit st_draws st_logs].
      * lia.
      * now rewrite length_alter.
Qed.

Lemma days_loop_stops plan sd days : forall s s' r,
  (forall d, d ∈ days -> (d < length plan)%nat) ->
  st_num_commit s = Z.of_nat (a + st_draws s) -> length (st_logs s) = len ->
  days_loop rand plan min_time max_time sd days s = (s', r) ->
  r = Ok tt \/ (r = Raise IndexError /\ (len <= a + st_draws s')%nat).
Proof.
  induction days as [|d days IH]; intros s s' r Hdays Hnum Hlen.
  - intros [= <- <-]. auto.
  - cbn [days_loop].
    destruct (lookup_lt_is_Some_2 plan d) as [n ->]; [apply Hdays; left|].
    destruct (day_loop _ _ _ _ _ _) as [s1 r1] eqn:E.
    apply day_loop_stops in E as (Hnum1 & Hlen1 & Hr1); [|assumption..].
    destruct r1 as [[]|e].
    + apply IH; [|assumption..]. intros d' Hd'. apply Hdays. now right.
    + intros [= <- <-]. destruct Hr1 as [[=]|Hr1]. auto.
Qed.
End StopFacts.
Section WindowExtras.
Import LocalTime Envelope Redistribute Offset.

(** X11: when the window starts inside the list but [num_commit] is past
    its end, and the local clock could read the dates of the slice and of
    the first record, a call with a plan of 29 days raises [IndexError]
    only after it has given every record from [start_commit] to the end of
    the list its stamp as author and committer date; the records before
    [start_commit] are as they were. *)
Theorem redistribute_commits_past_the_end clk rand logs anchor plan mn mx first sd :
  length plan = 29%nat ->
  0 <= start_commit anchor plan < Z.of_nat (length logs) ->
  Z.of_nat (length logs) <= anchor ->
  envelope clk logs anchor plan = Ok (mn, mx) ->
  logs !! Z.to_nat (start_commit anchor plan) = Some first ->
  midnight clk (author_date first) = Ok sd ->
  exists logs',
    redistribute_commits clk rand logs anchor plan = (logs', Raise IndexError) /\
    (forall k, Z.of_nat k < start_commit anchor plan -> logs' !! k = logs !! k) /\
    (forall k c, start_commit anchor plan <= Z.of_nat k -> logs !! k = Some c ->
       exists c',
         logs' !! k = Some c' /\
         author_email c' = author_email c /\
         author_date c'
         = stamp rand plan mn mx sd (k - Z.to_nat (start_commit anchor plan)) /\
         committer_date c'
         = stamp rand plan mn mx sd (k - Z.to_nat (start_commit anchor plan))).
Proof.
  intros Hlen Hstart Hanchor Henv Hfirst Hsd. unfold redistribute_commits.
  destruct (run clk rand logs anchor plan) as [s' r] eqn:Hrun.
  set (a := Z.to_nat (start_commit anchor plan)) in *.
  assert (Hle : mn <= mx).
  { pose proof Henv as Henv'. unfold envelope, Py.slice, Py.bound in Henv'.
    destruct (Z.ltb_spec (start_commit anchor plan) 0); [lia|].
    destruct (Z.ltb_spec anchor 0); [lia|].
    apply loop_spec in Henv' as (_ & Hall & _).
    match type of Hall with forall c, c ∈ ?l -> _ =>
      destruct (lookup_lt_is_Some_2 l 0) as [c Hc];
        [rewrite length_take, length_drop; lia|]
    end.
    destruct (Hall c ltac:(eapply list_elem_of_lookup_2; exact Hc)) as (t & _ & Ht).
    lia. }
  assert (Hstop : r = Ok tt \/
            (r = Raise IndexError /\ (length logs <= a + st_draws s')%nat)).
  { pose proof Hrun as Hrun'. unfold run in Hrun'.
    rewrite Hlen, Henv in Hrun'. cbn [Nat.eqb negb] in Hrun'.
    rewrite get_inside in Hrun' by lia. fold a in Hrun'.
    rewrite Hfirst, Hsd in Hrun'.
    apply (days_loop_stops rand mn mx (length logs) a Hle) in Hrun';
      [exact Hrun'| |cbn; lia|reflexivity].
    intros d [_ Hd]%elem_of_seq. lia. }
  destruct (run_inv clk rand logs anchor plan mn mx s' r Hlen ltac:(lia) Henv Hrun)
    as [(_ & e & _ & [Hshort|(first' & Hfirst' & Hraise)])
       |(first' & sd' & p & Hfirst' & Hsd' & Hinv & Hp & Hok & _)].
  { fold a in Hshort. lia. }
  { fold a in Hfirst'. congruence. }
  fold a in Hinv, Hfirst'.
  assert (first' = first) as -> by congruence.
  assert (sd' = sd) as -> by congruence.
  pose proof (wu_inside _ _ _ _ _ _ _ _ _ Hinv) as Hinside.
  pose proof (wu_draws _ _ _ _ _ _ _ _ _ Hinv) as Hdraws.
  destruct Hstop as [->|(-> & Hpast)].
  { destruct (Hok eq_refl) as [-> _].
    unfold a, start_commit, total_commits in *. lia. }
  exists (st_logs s'). split; [reflexivity|]. split.
  - intros k Hk. rewrite (wu_logs _ _ _ _ _ _ _ _ _ Hinv).
    rewrite decide_False by lia. reflexivity.
  - intros k c Hk Hc.
    assert (Hklen : (k < length logs)%nat) by (apply lookup_lt_is_Some; eauto).
    rewrite (wu_logs _ _ _ _ _ _ _ _ _ Hinv), decide_True, Hc by lia.
    cbn. eexists. split; [reflexivity|]. repeat split.
Qed.

Lemma redistribute_commits_past_the_end_witness :
  let clk := fixed_offset 0 in
  let first := Samples.at_time "dev@example.org" 10412400 in
  length Samples.plan50 = 29%nat /\
  0 <= start_commit 69 Samples.plan50 < Z.of_nat (length (Samples.daily 60)) /\
  Z.of_nat (length (Samples.daily 60)) <= 69 /\
  envelope clk (Samples.daily 60) 69 Samples.plan50 = Ok (44400, 67800) /\
  Samples.daily 60 !! Z.to_nat (start_commit 69 Samples.plan50) = Some first /\
  midnight clk (author_date first) = Ok 10368000 /\
  exists logs',
    redistribute_commits clk Samples.jumping (Samples.daily 60) 69 Samples.plan50
      = (logs', Raise IndexError).
Proof.
  intros clk first.
  assert (H1 : length Samples.plan50 = 29%nat) by reflexivity.
  assert (H2 : 0 <= start_commit 69 Samples.plan50
               < Z.of_nat (length (Samples.daily 60)))
    by (vm_compute; split; congruence).
  assert (H3 : Z.of_nat (length (Samples.daily 60)) <= 69)
    by (vm_compute; congruence).
  assert (H4 : envelope clk (Samples.daily 60) 69 Samples.plan50
               = Ok (44400, 67800)) by (vm_compute; reflexivity).
  assert (H5 : Samples.daily 60 !! Z.to_nat (start_commit 69 Samples.plan50)
               = Some first) by (vm_compute; reflexivity).
  assert (H6 : midnight clk (author_date first) = Ok 10368000)
    by (vm_compute; reflexivity).
  split; [exact H1|]. split; [exact H2|]. split; [exact H3|]. split; [exact H4|].
  split; [exact H5|]. split; [exact H6|].
  destruct (redistribute_commits_past_the_end clk Samples.jumping (Samples.daily 60)
              69 Samples.plan50 44400 67800 first 10368000 H1 H2 H3 H4 H5 H6)
    as (logs' & H & _).
  exists logs'. exact H.
Defined.
End WindowExtras.

Section ShiftedWindow.
Import LocalTime Envelope Redistribute Offset.

(** After a normal end on a window of at least one commit, the author date
    of every rewritten record is within 29 days before, and within a day
    after, that of the last one. *)
Lemma window_around_last clk rand logs anchor plan logs' :
  length plan = 29%nat ->
  0 <= start_commit anchor plan ->
  0 < total_commits plan ->
  redistribute_commits clk rand logs anchor plan = (logs', Ok tt) ->
  exists last,
    logs' !! Z.to_nat anchor = Some last /\
    0 <= anchor < Z.of_nat (length logs') /\
    forall k c, start_commit anchor plan <= Z.of_nat k <= anchor ->
      logs' !! k = Some c ->
      - Streak.month < author_date c - author_date last < 86400.
Proof.
  intros Hlen Hstart Htotal Hrun.
  destruct (normal_end clk rand logs anchor plan logs' Hlen Hstart Hrun)
    as (mn & mx & first & sd & _ & _ & _ & Hb & Hrange & Hinside & Hlength &
        _ & Hlookup).
  set (a := Z.to_nat (start_commit anchor plan)) in *.
  assert (Hpos : (0 < sum_list plan)%nat) by (unfold total_commits in *; lia).
  specialize (Hrange Hpos).
  assert (Hanchor : Z.to_nat anchor = (a + (sum_list plan - 1))%nat)
    by (unfold a, start_commit, total_commits in *; lia).
  destruct (Hlookup (sum_list plan - 1)%nat) as (c0 & _ & Hlast); [lia|].
  rewrite <- Hanchor in Hlast.
  eexists. split; [exact Hlast|].
  split; [unfold a, start_commit, total_commits in *; lia|].
  intros k c Hk Hc.
  destruct (Hlookup (k - a)%nat)
    as (c1 & _ & Hc'); [unfold a, start_commit, total_commits in *; lia|].
  replace (a + (k - a))%nat with k in Hc'
    by (unfold a, start_commit, total_commits in *; lia).
  rewrite Hc in Hc'. injection Hc' as ->.
  cbn [set_dates author_date]. unfold stamp, Streak.month.
  pose proof (draw_range rand mn mx (k - a) Hrange).
  pose proof (draw_range rand mn mx (sum_list plan - 1) Hrange).
  pose proof (day_of_mono plan (k - a) (sum_list plan - 1)
                ltac:(unfold a, start_commit, total_commits in *; lia)).
  pose proof (day_of_bound plan (sum_list plan - 1) ltac:(lia)).
  lia.
Qed.

(** X12: after a call that ends normally on a window inside the list, the
    offset computed for [num_commit] moves the last rewritten commit to the
    current time and every rewritten commit to less than 29 days before it
    and less than one day after it. *)
Theorem redistributed_window_moved_to_last_month
    clk rand now logs anchor plan logs' :
  length plan = 29%nat ->
  0 <= start_commit anchor plan ->
  0 < total_commits plan ->
  redistribute_commits clk rand logs anchor plan = (logs', Ok tt) ->
  exists offset last,
    compute_offset now logs' anchor = Ok offset /\
    logs' !! Z.to_nat anchor = Some last /\
    author_date last + offset = now /\
    forall k c, start_commit anchor plan <= Z.of_nat k <= anchor ->
      logs' !! k = Some c ->
      now - Streak.month < author_date c + offset < now + 86400.
Proof.
  intros Hlen Hstart Htotal Hrun.
  destruct (window_around_last clk rand logs anchor plan logs' Hlen Hstart Htotal
              Hrun)
    as (last & Hlast & Hanchor & Hall).
  exists (now - author_date last), last.
  split; [unfold compute_offset; rewrite get_inside by lia; now rewrite Hlast|].
  split; [exact Hlast|]. split; [lia|].
  intros k c Hk Hc. specialize (Hall k c Hk Hc). lia.
Qed.

Lemma redistributed_window_moved_to_last_month_witness :
  let clk := fixed_offset 0 in
  let logs := Samples.daily 60 in
  let logs' := fst (redistribute_commits clk Samples.falling logs 59 Samples.plan50) in
  length Samples.plan50 = 29%nat /\
  0 <= start_commit 59 Samples.plan50 /\
  0 < total_commits Samples.plan50 /\
  redistribute_commits clk Samples.falling logs 59 Samples.plan50 = (logs', Ok tt) /\
  exists offset last,
    compute_offset 20000000 logs' 59 = Ok offset /\
    logs' !! Z.to_nat 59 = Some last /\
    author_date last + offset = 20000000.
Proof.
  intros clk logs logs'.
  assert (H1 : length Samples.plan50 = 29%nat) by reflexivity.
  assert (H2 : 0 <= start_commit 59 Samples.plan50) by (vm_compute; discriminate).
  assert (H3 : 0 < total_commits Samples.plan50) by reflexivity.
  assert (H4 : redistribute_commits clk Samples.falling logs 59 Samples.plan50
               = (logs', Ok tt)) by (vm_compute; reflexivity).
  split; [exact H1|]. split; [exact H2|]. split; [exact H3|]. split; [exact H4|].
  destruct (redistributed_window_moved_to_last_month clk Samples.falling 20000000
              logs 59 Samples.plan50 logs' H1 H2 H3 H4)
    as (offset & last & Hoff & Hlast & Hnow & _).
  exists offset, last. split; [exact Hoff|]. split; [exact Hlast|exact Hnow].
Defined.
End ShiftedWindow.

(** * The script *)

Section ScriptExtras.
Import Streak Offset Redistribute Script.

Lemma find_contributor_cases contributors logs :
  exists who n, find_contributor_50commits_month contributors logs = Ok (who, n) /\
    forall c, who = Some c -> find_50commits_month logs (Some c) = Ok n /\ n <> -1.
Proof.
  induction contributors as [|c rest IH].
  - exists None, (-1). split; [reflexivity|]. discriminate.
  - cbn [find_contributor_50commits_month].
    destruct (search_range logs (Some c) (length logs - 1)) as (n & Hn & _); [lia|].
    fold (find_50commits_month logs (Some c)) in Hn. rewrite Hn.
    destruct (Z.eqb_spec n (-1)) as [->|Hne]; cbn [negb]; [exact IH|].
    exists (Some c), n. split; [reflexivity|]. now intros c' [= <-].
Qed.

Lemma shift_and_rebuild_exit now logs n nr yn ye who status call :
  shift_and_rebuild now logs n nr yn ye who = Exit status call ->
  status = 0 /\
  exists offset, compute_offset now logs n = Ok offset /\
    call = Some (Rebuild logs nr yn ye who offset).
Proof.
  unfold shift_and_rebuild. destruct (compute_offset now logs n) as [offset|e];
    [|discriminate].
  intros [= <- <-]. eauto.
Qed.

(** A streak found for [a], handed to [git.rebuild_repository]. *)
Lemma streak_rebuilt now logs a n nr yn ye who status call :
  find_50commits_month logs (Some a) = Ok n -> n <> -1 ->
  (forall c, author_email c = a ->
     shown_as_user (Rebuild logs nr yn ye who (rb_offset call)) c = true) ->
  shift_and_rebuild now logs n nr yn ye who = Exit status (Some call) ->
  status = 0 /\
  (50 <= length (filter
                   (fun c => shown_as_user call c = true /\
                             (now - month <= author_date c + rb_offset call)%Z)
                   (rb_logs call)))%nat.
Proof.
  intros Hfind Hn Hshown Hexit.
  apply shift_and_rebuild_exit in Hexit as (-> & offset & Hoff & [= ->]).
  split; [reflexivity|]. cbn [rb_logs rb_offset] in *.
  destruct (search_found _ _ _ _ Hfind Hn) as (k & -> & _ & Hstreak).
  destruct (streak_shifted now logs a k Hstreak) as (ck & _ & Hoff' & Hcount & _).
  rewrite Hoff in Hoff'. injection Hoff' as ->.
  etransitivity; [|etransitivity; [exact Hcount|]]; [lia|].
  apply length_filter_le. intros c _ [Ha Hle]. split; [now apply Hshown|exact Hle].
Qed.

(** X13: when the script calls [git.rebuild_repository], with a plan of 29
    days for 50 commits or more and no more than the logs hold, it exits
    with status 0 and at least 50 of the commits it hands over are shown
    under the user's name and dated, once moved by the offset, no earlier
    than 29 days before the current time. *)
Theorem main_shows_fifty_commits clk rand now argv logs contributors plan status call :
  length plan = 29%nat ->
  50 <= total_commits plan <= Z.of_nat (length logs) ->
  main clk rand now argv logs contributors plan = Exit status (Some call) ->
  status = 0 /\
  (50 <= length (filter
                   (fun c => shown_as_user call c = true /\
                             (now - month <= author_date c + rb_offset call)%Z)
                   (rb_logs call)))%nat.
Proof.
  intros Hlen Htotal. unfold main.
  destruct (length argv <? 5)%nat; [discriminate|].
  destruct (length logs <? 50)%nat; [discriminate|].
  set (nr := nth 2 argv ""%string). set (ye := nth 3 argv ""%string).
  set (yn := nth 4 argv ""%string).
  destruct (find_50commits_month logs (Some ye)) as [n|e] eqn:Hself; [|discriminate].
  destruct (Z.eqb_spec n (-1)) as [->|Hn]; cbn [negb].
  2:{ apply (streak_rebuilt now logs ye n nr yn ye Nobody status call Hself Hn).
      intros c Hc. unfold shown_as_user. cbn. now apply String.eqb_eq. }
  destruct (find_contributor_cases contributors logs) as (who & m & -> & Hwho).
  destruct who as [c|].
  { destruct (Hwho c eq_refl) as [Hfind Hm].
    apply (streak_rebuilt now logs c m nr yn ye (Only c) status call Hfind Hm).
    intros c' Hc'. unfold shown_as_user. cbn. apply orb_true_intro. left.
    now apply String.eqb_eq. }
  rewrite find_50commits_month_no_author. cbn [Z.eqb negb].
  set (anchor := Z.of_nat (length logs) - 1).
  destruct (redistribute_commits clk rand logs anchor plan) as [logs' [[]|e]] eqn:Hrun;
    [|discriminate].
  intros Hexit.
  apply shift_and_rebuild_exit in Hexit as (-> & offset & Hoff & [= ->]).
  split; [reflexivity|]. cbn [rb_logs rb_offset].
  assert (Hstart : 0 <= start_commit anchor plan)
    by (unfold anchor, start_commit; lia).
  destruct (window_around_last clk rand logs anchor plan logs' Hlen Hstart
              ltac:(lia) Hrun) as (last & Hlast & Hanchor & Hall).
  unfold compute_offset in Hoff. rewrite get_inside, Hlast in Hoff by lia.
  injection Hoff as <-.
  set (a := Z.to_nat (start_commit anchor plan)).
  set (total := Z.to_nat (total_commits plan)).
  etransitivity; [|apply (length_filter_part _ logs' a total)].
  rewrite length_filter_all.
  - rewrite length_take, length_drop.
    unfold a, total, anchor, start_commit in *. lia.
  - intros c [j Hj]%list_elem_of_lookup. split; [reflexivity|].
    destruct (le_lt_dec total j) as [Hge|Hlt].
    { rewrite lookup_take_ge in Hj by exact Hge. discriminate. }
    rewrite lookup_take_lt, lookup_drop in Hj by exact Hlt.
    specialize (Hall (a + j)%nat c
                  ltac:(unfold a, total, anchor, start_commit in *; lia) Hj).
    lia.
Qed.
End ScriptExtras.

Section ScriptCases.
Import Streak Offset Redistribute Script.

Lemma main_shows_fifty_commits_witness :
  let clk := LocalTime.fixed_offset 0 in
  let logs' :=
    fst (redistribute_commits clk Samples.jumping (Samples.daily 60) 59
           Samples.plan50) in
  let call := Rebuild logs' "copy" "Me" "me@example.org" Everybody 8024782 in
  length Samples.plan50 = 29%nat /\
  50 <= total_commits Samples.plan50 <= Z.of_nat (length (Samples.daily 60)) /\
  main clk Samples.jumping 20000000 Samples.argv (Samples.daily 60) []
    Samples.plan50 = Exit 0 (Some call) /\
  (50 <= length (filter
                   (fun c => shown_as_user call c = true /\
                             (20000000 - month <= author_date c + rb_offset call)%Z)
                   (rb_logs call)))%nat.
Proof.
  intros clk logs' call.
  assert (H1 : length Samples.plan50 = 29%nat) by reflexivity.
  assert (H2 : 50 <= total_commits Samples.plan50
               <= Z.of_nat (length (Samples.daily 60)))
    by (vm_compute; split; congruence).
  assert (H3 : main clk Samples.jumping 20000000 Samples.argv (Samples.daily 60) []
                 Samples.plan50 = Exit 0 (Some call)) by (vm_compute; reflexivity).
  split; [exact H1|]. split; [exact H2|]. split; [exact H3|].
  exact (proj2 (main_shows_fifty_commits clk Samples.jumping 20000000 Samples.argv
                  (Samples.daily 60) [] Samples.plan50 0 call H1 H2 H3)).
Defined.

Lemma compute_offset_inside now (logs : list commit) n :
  0 <= n < Z.of_nat (length logs) ->
  exists offset, compute_offset now logs n = Ok offset.
Proof.
  intros Hn. unfold compute_offset. rewrite get_inside by lia.
  destruct (lookup_lt_is_Some_2 logs (Z.to_nat n)) as [c ->]; [lia|]. eauto.
Qed.

Lemma compute_offset_reads now (logs : list commit) n offset :
  compute_offset now logs n = Ok offset ->
  exists k c, logs !! k = Some c /\ author_date c + offset = now.
Proof.
  unfold compute_offset, Py.get. destruct (Py.index _ _) as [k|]; [|discriminate].
  destruct (logs !! k) as [c|] eqn:Hc; [|discriminate].
  intros [= <-]. exists k, c. split; [exact Hc|lia].
Qed.

Lemma find_50commits_month_inside logs author n :
  find_50commits_month logs author = Ok n -> n <> -1 ->
  0 <= n < Z.of_nat (length logs).
Proof.
  intros Hfind Hn.
  destruct (search_range logs author (length logs - 1)) as (r & Hr & Hrange); [lia|].
  fold (find_50commits_month logs author) in Hr. rewrite Hfind in Hr.
  injection Hr as <-. lia.
Qed.

Lemma find_contributor_listed contributors logs c n :
  find_contributor_50commits_month contributors logs = Ok (Some c, n) ->
  c ∈ contributors.
Proof.
  induction contributors as [|c0 rest IH]; [discriminate|].
  cbn [find_contributor_50commits_month].
  destruct (find_50commits_month logs (Some c0)) as [m|]; [|discriminate].
  destruct (negb (m =? -1)).
  - intros [= <- <-]. left.
  - intros H. right. now apply IH.
Qed.

Lemma redistribute_commits_length clk rand logs anchor plan logs' r :
  redistribute_commits clk rand logs anchor plan = (logs', r) ->
  length logs' = length logs.
Proof.
  unfold redistribute_commits.
  destruct (run clk rand logs anchor plan) as [s' r'] eqn:Hrun.
  intros [= <- <-].
  pose proof (run_kept author_email (fun _ _ => eq_refl) _ _ _ _ _ _ _ Hrun) as H.
  rewrite <- (length_fmap author_email (st_logs s')), H. apply length_fmap.
Qed.

(** X14: with five arguments or more, 50 commits or more, author dates
    the local clock can read, and a plan of 29 days for at least two
    commits and no more than the logs hold, the script raises nothing: it
    calls [git.rebuild_repository] and exits with status 0. *)
Theorem main_rebuilds clk rand now argv logs contributors plan :
  (5 <= length argv)%nat ->
  (50 <= length logs)%nat ->
  length plan = 29%nat ->
  2 <= total_commits plan <= Z.of_nat (length logs) ->
  (forall c, c ∈ logs ->
     (exists t, LocalTime.time_of_day clk (author_date c) = Ok t) /\
     (exists sd, LocalTime.midnight clk (author_date c) = Ok sd)) ->
  exists call,
    main clk rand now argv logs contributors plan = Exit 0 (Some call).
Proof.
  intros Hargv Hlogs Hlen Htotal Hread. unfold main.
  destruct (Nat.ltb_spec (length argv) 5); [lia|].
  destruct (Nat.ltb_spec (length logs) 50); [lia|].
  set (nr := nth 2 argv ""%string). set (ye := nth 3 argv ""%string).
  set (yn := nth 4 argv ""%string).
  assert (Hshift : forall l n who, 0 <= n < Z.of_nat (length l) ->
            exists call, shift_and_rebuild now l n nr yn ye who = Exit 0 (Some call)).
  { intros l n who Hn. unfold shift_and_rebuild.
    destruct (compute_offset_inside now l n Hn) as [offset ->]. eauto. }
  destruct (search_range logs (Some ye) (length logs - 1)) as (n & Hself & _); [lia|].
  fold (find_50commits_month logs (Some ye)) in Hself. rewrite Hself.
  destruct (Z.eqb_spec n (-1)) as [->|Hn]; cbn [negb].
  2:{ apply Hshift. now apply (find_50commits_month_inside logs (Some ye)). }
  destruct (find_contributor_cases contributors logs) as (who & m & -> & Hwho).
  destruct who as [c|].
  { destruct (Hwho c eq_refl) as [Hfind Hm].
    apply Hshift. now apply (find_50commits_month_inside logs (Some c)). }
  rewrite find_50commits_month_no_author. cbn [Z.eqb negb].
  destruct (redistribute_commits_returns clk rand logs
              (Z.of_nat (length logs) - 1) plan)
    as [logs' Hrun]; [exact Hlen|unfold start_commit; lia|lia|lia|exact Hread|].
  rewrite Hrun. apply Hshift.
  rewrite (redistribute_commits_length _ _ _ _ _ _ _ Hrun). lia.
Qed.

Lemma main_rebuilds_witness :
  let clk := LocalTime.fixed_offset 0 in
  (5 <= length Samples.argv)%nat /\
  (50 <= length Samples.sixty_in_a_minute)%nat /\
  length Samples.plan60 = 29%nat /\
  2 <= total_commits Samples.plan60 <= Z.of_nat (length Samples.sixty_in_a_minute) /\
  (forall c, c ∈ Samples.sixty_in_a_minute ->
     (exists t, LocalTime.time_of_day clk (author_date c) = Ok t) /\
     (exists sd, LocalTime.midnight clk (author_date c) = Ok sd)) /\
  exists call,
    main clk Samples.falling 20000000 Samples.argv Samples.sixty_in_a_minute
      ["dev@example.org"%string] Samples.plan60 = Exit 0 (Some call).
Proof.
  intros clk.
  assert (H1 : (5 <= length Samples.argv)%nat) by (vm_compute; lia).
  assert (H2 : (50 <= length Samples.sixty_in_a_minute)%nat) by (vm_compute; lia).
  assert (H3 : length Samples.plan60 = 29%nat) by reflexivity.
  assert (H4 : 2 <= total_commits Samples.plan60
               <= Z.of_nat (length Samples.sixty_in_a_minute))
    by (vm_compute; split; congruence).
  assert (H5 : forall c, c ∈ Samples.sixty_in_a_minute ->
            (exists t, LocalTime.time_of_day clk (author_date c) = Ok t) /\
            (exists sd, LocalTime.midnight clk (author_date c) = Ok sd)).
  { intros c _. split; eexists; reflexivity. }
  split; [exact H1|]. split; [exact H2|]. split; [exact H3|]. split; [exact H4|].
  split; [exact H5|].
  exact (main_rebuilds clk Samples.falling 20000000 Samples.argv
           Samples.sixty_in_a_minute ["dev@example.org"%string] Samples.plan60
           H1 H2 H3 H4 H5).
Defined.

(** X15: the script exits with status 2 and no rebuild on fewer than five
    arguments, and with status 1 and no rebuild on fewer than 50 commits.
    When it rebuilds, it exits with status 0, the offset puts one of the
    commits handed over at the current time, and the logs handed over are
    the ones it received unless everybody is replaced: everybody is only
    ever replaced after [redistribute_commits] has rewritten the logs. *)
Theorem main_outcomes clk rand now argv logs contributors plan status call :
  main clk rand now argv logs contributors plan = Exit status call ->
  match call with
  | None =>
    (status = 2 /\ (length argv < 5)%nat) \/
    (status = 1 /\ (5 <= length argv)%nat /\ (length logs < 50)%nat)
  | Some rb =>
    status = 0 /\ (5 <= length argv)%nat /\ (50 <= length logs)%nat /\
    rb_new_repository rb = nth 2 argv ""%string /\
    rb_your_email rb = nth 3 argv ""%string /\
    rb_your_name rb = nth 4 argv ""%string /\
    (exists k c, rb_logs rb !! k = Some c /\ author_date c + rb_offset rb = now) /\
    match rb_replaced rb with
    | Nobody => rb_logs rb = logs
    | Only c => rb_logs rb = logs /\ c ∈ contributors
    | Everybody =>
      redistribute_commits clk rand logs (Z.of_nat (length logs) - 1) plan
      = (rb_logs rb, Ok tt)
    end
  end.
Proof.
  unfold main.
  destruct (Nat.ltb_spec (length argv) 5) as [Hargv|Hargv].
  { intros [= <- <-]. left. split; [reflexivity|exact Hargv]. }
  destruct (Nat.ltb_spec (length logs) 50) as [Hlogs|Hlogs].
  { intros [= <- <-]. right. split; [reflexivity|]. split; assumption. }
  set (nr := nth 2 argv ""%string). set (ye := nth 3 argv ""%string).
  set (yn := nth 4 argv ""%string).
  assert (Hshift : forall l n who,
            shift_and_rebuild now l n nr yn ye who = Exit status call ->
            exists rb, call = Some rb /\ status = 0 /\
              rb_logs rb = l /\ rb_new_repository rb = nr /\ rb_your_email rb = ye /\
              rb_your_name rb = yn /\ rb_replaced rb = who /\
              exists k c, rb_logs rb !! k = Some c /\
                author_date c + rb_offset rb = now).
  { intros l n who Hexit.
    apply shift_and_rebuild_exit in Hexit as (-> & offset & Hoff & ->).
    eexists. split; [reflexivity|]. cbn. repeat (split; [reflexivity|]).
    exact (compute_offset_reads now l n offset Hoff). }
  destruct (find_50commits_month logs (Some ye)) as [n|e]; [|discriminate].
  destruct (negb (n =? -1)).
  { intros H. apply Hshift in H
      as (rb & -> & -> & Hl & Hnr & Hye & Hyn & Hwho & Hnow).
    rewrite Hwho. repeat (split; [assumption || reflexivity|]). exact Hl. }
  destruct (find_contributor_50commits_month contributors logs)
    as [[[c|] m]|e] eqn:Hcontributor; [| |discriminate].
  { intros H. apply Hshift in H
      as (rb & -> & -> & Hl & Hnr & Hye & Hyn & Hwho & Hnow).
    rewrite Hwho. repeat (split; [assumption || reflexivity|]).
    exact (find_contributor_listed _ _ _ _ Hcontributor). }
  rewrite find_50commits_month_no_author. cbn [Z.eqb negb].
  destruct (redistribute_commits clk rand logs (Z.of_nat (length logs) - 1) plan)
    as [logs' [[]|e]] eqn:Hrun; [|discriminate].
  intros H. apply Hshift in H
    as (rb & -> & -> & Hl & Hnr & Hye & Hyn & Hwho & Hnow).
  rewrite Hwho. repeat (split; [assumption || reflexivity|]). now rewrite Hl.
Qed.

Lemma main_outcomes_witness :
  let call :=
    Rebuild Samples.sixty_in_a_minute "copy" "Me" "me@example.org"
      (Only "dev@example.org") 19999941 in
  main (LocalTime.fixed_offset 0) Samples.jumping 20000000 Samples.argv
    Samples.sixty_in_a_minute ["dev@example.org"%string] Samples.plan50
  = Exit 0 (Some call) /\
  exists k c, Samples.sixty_in_a_minute !! k = Some c /\
    author_date c + 19999941 = 20000000.
Proof.
  intros call.
  assert (H : main (LocalTime.fixed_offset 0) Samples.jumping 20000000 Samples.argv
                Samples.sixty_in_a_minute ["dev@example.org"%string] Samples.plan50
              = Exit 0 (Some call)) by (vm_compute; reflexivity).
  split; [exact H|].
  pose proof (main_outcomes (LocalTime.fixed_offset 0) Samples.jumping 20000000
                Samples.argv Samples.sixty_in_a_minute ["dev@example.org"%string]
                Samples.plan50 0 (Some call) H) as (_ & _ & _ & _ & _ & _ & Hnow & _).
  exact Hnow.
Defined.
End ScriptCases.
